(** * learn-tech: the two file-system scripts

    A shallow embedding of

    - [Python/test.py], the script that puts an empty [README.md] into the
      sub-directories of the working directory (all but the first one), and
    - [frontend-learn/HTML/print_file.py], the script that prints the files
      of a folder between banners,

    over one small model of what the operating system answers, followed by
    the properties the specification states about them. *)

From Stdlib Require Import String Ascii.
From stdpp Require Import base option list strings gmap.

Open Scope string_scope.
Open Scope list_scope.

(** ** Text *)

(** The two characters the scripts write that have no spelling inside a
    Rocq string: the line feed ([\n] in Python) and the backslash. *)
Definition nl : string := String (ascii_of_nat 10) EmptyString.
Definition bslash : string := String (ascii_of_nat 92) EmptyString.

(** [str.endswith]: [suffix] is the tail of [s] of its own length. *)
Definition endswith (s suffix : string) : bool :=
  let n := String.length s in
  let m := String.length suffix in
  Nat.leb m n && String.eqb (substring (n - m) m s) suffix.

(** ** The operating system, as the scripts see it *)

(** The exceptions that can reach the scripts. *)
Inductive exn : Type :=
| IndexError                       (* list.pop on an empty list *)
| FileExistsError (path : string)  (* open(path, 'x') on a path in use *)
| OSError (path : string)          (* any other refusal at [path]: missing,
                                      not of the right kind, not permitted *)
| UnicodeDecodeError (why : string) (* bytes that are not UTF-8 text *)
| UnicodeEncodeError (text : string). (* a text that standard output
                                         cannot encode *)

(** What a regular file holds, seen through a UTF-8 text reader: text, or
    bytes on which [read] raises. *)
Inductive payload : Type :=
| Text (s : string)
| Garbled (why : string).

Inductive node : Type :=
| Dir
| File (data : payload).

(** The file system.  Paths are the strings the scripts hand to the
    operating system, and each such string is a key of its own: a bare name
    is looked up as it is (the system resolves it against the working
    directory), a longer path as it is spelt.

    - [nodes]: what sits at a path;
    - [dirents]: the names [os.listdir] returns for a path, in the order the
      system gives them; no entry means the listing is refused;
    - [denied]: the paths at which the system refuses to list, open or
      create;
    - [encodes]: the texts the standard output of the process can encode;
      like the working directory it belongs to the process rather than to
      the files, and no script changes it.  [print] raises on a text that
      cannot be encoded, a file name with bytes outside the encoding for
      one.

    [test.py] lists the working directory only and creates files inside its
    sub-directories only, so creating a file leaves [dirents] as it is. *)
Record fsys : Type := mkFS {
  cwd : string;
  nodes : gmap string node;
  dirents : gmap string (list string);
  denied : gset string;
  encodes : string -> bool
}.

(** The system calls a run performs, in order. *)
Inductive event : Type :=
| EvListDir (path : string)
| EvIsDir (path : string)
| EvIsFile (path : string)
| EvCreate (path : string)    (* open(path, 'x') *)
| EvOpen (path : string)      (* open(path, 'r') *)
| EvRead (path : string).

(** A run threads the file system, the arguments of the successive [print]
    calls, and the log of system calls. *)
Record world : Type := mkW {
  fs : fsys;
  out : list string;
  log : list event
}.

(** What [print] puts on standard output: each argument, then a line feed. *)
Fixpoint console_text (printed : list string) : string :=
  match printed with
  | [] => ""
  | s :: rest => s +:+ nl +:+ console_text rest
  end.

(** ** Computations that change the world or raise *)

Definition M (A : Type) : Type := world -> world * (exn + A).

Definition ret {A} (a : A) : M A := fun w => (w, inr a).

Definition raise {A} (e : exn) : M A := fun w => (w, inl e).

Definition bind {A B} (c : M A) (k : A -> M B) : M B :=
  fun w =>
    match c w with
    | (w', inl e) => (w', inl e)
    | (w', inr a) => k a w'
    end.

(** [try: body except Exception as e: handler(e)] *)
Definition try_except {A} (body : M A) (handler : exn -> M A) : M A :=
  fun w =>
    match body w with
    | (w', inl e) => handler e w'
    | (w', inr a) => (w', inr a)
    end.

Declare Scope run_scope.
Delimit Scope run_scope with run.
Notation "x <- c ;; k" := (bind c (fun x => k))
  (at level 100, c at next level, right associativity) : run_scope.
Notation "c ;;; k" := (bind c (fun _ => k))
  (at level 100, right associativity) : run_scope.
Open Scope run_scope.

(** [for x in l: body(x)] *)
Fixpoint for_each {A} (l : list A) (body : A -> M unit) : M unit :=
  match l with
  | [] => ret tt
  | x :: rest => body x ;;; for_each rest body
  end.

(** [[x for x in l if test(x)]] *)
Fixpoint comprehension {A} (l : list A) (test : A -> M bool) : M (list A) :=
  match l with
  | [] => ret []
  | x :: rest =>
      keep <- test x ;;
      kept <- comprehension rest test ;;
      ret (if keep then x :: kept else kept)
  end.

(** ** System calls and built-ins *)

Definition emit (e : event) : M unit :=
  fun w => (mkW (fs w) (out w) (log w ++ [e]), inr tt).

(** [print(s)]: the text goes out whole, or [UnicodeEncodeError] is raised
    and nothing goes out. *)
Definition print (s : string) : M unit :=
  fun w =>
    if encodes (fs w) s then (mkW (fs w) (out w ++ [s]) (log w), inr tt)
    else (w, inl (UnicodeEncodeError s)).

Definition getcwd : M string := fun w => (w, inr (cwd (fs w))).

Definition is_dir (f : fsys) (path : string) : bool :=
  match nodes f !! path with
  | Some Dir => true
  | _ => false
  end.

Definition is_file (f : fsys) (path : string) : bool :=
  match nodes f !! path with
  | Some (File _) => true
  | _ => false
  end.

(** [os.path.isdir] and [os.path.isfile] answer [False] on anything they
    cannot inspect and never raise. *)
Definition isdir (path : string) : M bool :=
  emit (EvIsDir path) ;;; fun w => (w, inr (is_dir (fs w) path)).

Definition isfile (path : string) : M bool :=
  emit (EvIsFile path) ;;; fun w => (w, inr (is_file (fs w) path)).

Definition list_dir (f : fsys) (path : string) : exn + list string :=
  if decide (path ∈ denied f) then inl (OSError path)
  else match dirents f !! path with
       | Some names => inr names
       | None => inl (OSError path)
       end.

Definition listdir (path : string) : M (list string) :=
  emit (EvListDir path) ;;; fun w => (w, list_dir (fs w) path).

Definition create (f : fsys) (path : string) : fsys :=
  mkFS (cwd f) (<[path := File (Text "")]> (nodes f)) (dirents f) (denied f)
       (encodes f).

(** [open(path, 'x')]: exclusive creation of an empty file. *)
Definition open_x (path : string) : M unit :=
  emit (EvCreate path) ;;;
  fun w =>
    match nodes (fs w) !! path with
    | Some _ => (w, inl (FileExistsError path))
    | None =>
        if decide (path ∈ denied (fs w)) then (w, inl (OSError path))
        else (mkW (create (fs w) path) (out w) (log w), inr tt)
    end.

(** [open(path, 'r', encoding='utf-8')]: the handle is the file's payload
    together with its path. *)
Definition open_r (path : string) : M (string * payload) :=
  emit (EvOpen path) ;;;
  fun w =>
    if decide (path ∈ denied (fs w)) then (w, inl (OSError path))
    else match nodes (fs w) !! path with
         | Some (File data) => (w, inr (path, data))
         | _ => (w, inl (OSError path))
         end.

(** [file.read()] *)
Definition read (handle : string * payload) : M string :=
  emit (EvRead (fst handle)) ;;;
  match snd handle with
  | Text s => ret s
  | Garbled why => raise (UnicodeDecodeError why)
  end.

(** [list.pop(0)], returning what is left of the list. *)
Definition pop0 {A} (l : list A) : M (list A) :=
  match l with
  | [] => raise IndexError
  | _ :: rest => ret rest
  end.

(** ** [Python/test.py] *)

Module TestPy.

(** [f'{base}\{dir}\\README.md']: the working directory, a backslash, the
    directory's name, a backslash, [README.md]. *)
Definition cur_path (base dir : string) : string :=
  base +:+ bslash +:+ dir +:+ bslash +:+ "README.md".

(** [f'{base}\{dir}\\'], computed by the script and never used. *)
Definition alt_path (base dir : string) : string :=
  base +:+ bslash +:+ dir +:+ bslash.

(** The body of the [for dir in folder] loop. *)
Definition body (base dir : string) : M unit :=
  present <- isfile (cur_path base dir) ;;
  if negb present then
    open_x (cur_path base dir) ;;;
    print ("File Created " +:+ cur_path base dir)
  else ret tt.

(** The script.  The counters [n] and [c] it sets are never read. *)
Definition script : M unit :=
  base <- getcwd ;;
  names <- listdir base ;;
  folder <- comprehension names isdir ;;
  folder <- pop0 folder ;;
  for_each folder (body base).

End TestPy.

(** ** [frontend-learn/HTML/print_file.py] *)

Section PrintFile.

(** The library functions the script calls on paths and exceptions are the
    platform's: [os.path.join], [os.path.basename] and [str] of an
    exception. *)
Variable join : string -> string -> string.
Variable basename : string -> string.
Variable str_exn : exn -> string.

Definition opening_banner (file_path : string) : string :=
  nl +:+ "=== Contents of " +:+ basename file_path +:+ " ===" +:+ nl.

Definition closing_banner (file_path : string) : string :=
  nl +:+ "=== End of " +:+ basename file_path +:+ " ===" +:+ nl.

Definition read_error (file_path : string) (e : exn) : string :=
  "Error reading file '" +:+ file_path +:+ "': " +:+ str_exn e.

Definition print_file_contents (file_path : string) : M unit :=
  try_except
    (file <- open_r file_path ;;
     print (opening_banner file_path) ;;;
     text <- read file ;;
     print text ;;;
     print (closing_banner file_path))
    (fun e => print (read_error file_path e)).

(** The lines [print_file_contents] prints for a path when standard output
    takes them all: banner, contents and banner for a file that is read;
    banner and error line for a file that opens and does not decode; the
    error line alone for a path that does not open. *)
Definition report (f : fsys) (file_path : string) : list string :=
  if decide (file_path ∈ denied f)
  then [read_error file_path (OSError file_path)]
  else match nodes f !! file_path with
       | Some (File (Text s)) =>
           [opening_banner file_path; s; closing_banner file_path]
       | Some (File (Garbled why)) =>
           [opening_banner file_path;
            read_error file_path (UnicodeDecodeError why)]
       | _ => [read_error file_path (OSError file_path)]
       end.

Definition invalid_directory (folder_path : string) : string :=
  "Error: '" +:+ folder_path +:+ "' is not a valid directory.".

(** [extension is None or filename.endswith(extension)] *)
Definition extension_matches (extension : option string) (filename : string)
  : bool :=
  match extension with
  | None => true
  | Some suffix => endswith filename suffix
  end.

(** The body of the [for filename in os.listdir(folder_path)] loop. *)
Definition entry (folder_path : string) (extension : option string)
    (filename : string) : M unit :=
  let file_path := join folder_path filename in
  regular <- isfile file_path ;;
  if regular then
    if extension_matches extension filename
    then print_file_contents file_path
    else ret tt
  else ret tt.

Definition print_all_files_in_folder
    (folder_path : string) (extension : option string) : M unit :=
  valid <- isdir folder_path ;;
  if negb valid then print (invalid_directory folder_path)
  else
    names <- listdir folder_path ;;
    for_each names (entry folder_path extension).

(** The names of a listing whose files the loop prints: the regular files
    that pass the extension test, in the listing's order. *)
Definition chosen (f : fsys) (folder_path : string)
    (extension : option string) (names : list string) : list string :=
  List.filter
    (fun filename =>
       is_file f (join folder_path filename)
       && extension_matches extension filename)
    names.

(** [file_type if file_type else None] in the script's entry point. *)
Definition extension_argument (file_type : string) : option string :=
  if String.eqb file_type "" then None else Some file_type.

End PrintFile.

(** ** Vocabulary of the statements *)

(** What a computation prints, and which system calls it makes, when it
    starts on file system [f] with nothing printed and nothing logged. *)
Definition prints {A} (c : M A) (f : fsys) : list string :=
  out (fst (c (mkW f [] []))).

Definition calls {A} (c : M A) (f : fsys) : list event :=
  log (fst (c (mkW f [] []))).

(** A path at which the loop body of [test.py] goes through: a regular file
    is there already, or nothing is there and creation is not refused. *)
Definition passable (f : fsys) (path : string) : bool :=
  is_file f path
  || (bool_decide (nodes f !! path = None)
      && bool_decide (path ∉ denied f)).

(** A directory whose turn of the loop of [test.py] can report: it has its
    [README.md], so there is nothing to report, or standard output can
    encode the line that reports the creation. *)
Definition reportable (f : fsys) (base dir : string) : bool :=
  is_file f (TestPy.cur_path base dir)
  || encodes f ("File Created " +:+ TestPy.cur_path base dir).

Definition is_create (e : event) : bool :=
  match e with EvCreate _ => true | _ => false end.

Definition is_open (e : event) : bool :=
  match e with EvOpen _ => true | _ => false end.


(** The file system a computation leaves, and how it ends, when it starts
    on [f] in the same way. *)
Definition after {A} (c : M A) (f : fsys) : fsys :=
  fs (fst (c (mkW f [] []))).

Definition outcome {A} (c : M A) (f : fsys) : exn + A :=
  snd (c (mkW f [] [])).

(** [grows paths w w']: [w'] is [w] after some turns of the loop of
    [test.py] over [paths].  Nothing that existed has changed, what is new
    is an empty file at one of the [paths], and the console and the log of
    system calls have only been added to. *)
Record grows (paths : list string) (w w' : world) : Prop := mkGrows {
  grows_cwd : cwd (fs w') = cwd (fs w);
  grows_dirents : dirents (fs w') = dirents (fs w);
  grows_denied : denied (fs w') = denied (fs w);
  grows_keeps : forall p n,
    nodes (fs w) !! p = Some n -> nodes (fs w') !! p = Some n;
  grows_new : forall p,
    nodes (fs w) !! p = None ->
    nodes (fs w') !! p = None
    \/ (nodes (fs w') !! p = Some (File (Text "")) /\ p ∈ paths);
  grows_out : exists more,
    out w' = out w ++ more
    /\ forall s, s ∈ more -> exists p, p ∈ paths /\ s = "File Created " +:+ p;
  grows_log : exists steps,
    log w' = log w ++ steps
    /\ forall e, e ∈ steps ->
         exists p, p ∈ paths /\ (e = EvIsFile p \/ e = EvCreate p)
}.

(** ** Sample platform and file systems, for the examples *)

(** [posixpath.join] on two components and [posixpath.basename]. *)
Definition posix_join (a b : string) : string :=
  if String.prefix "/" b then b
  else if String.eqb a "" || endswith a "/" then a +:+ b
  else a +:+ "/" +:+ b.

Fixpoint has_slash (s : string) : bool :=
  match s with
  | EmptyString => false
  | String c rest => Ascii.eqb c "/" || has_slash rest
  end.

Fixpoint posix_basename (p : string) : string :=
  match p with
  | EmptyString => ""
  | String _ rest => if has_slash p then posix_basename rest else p
  end.

(** A stand-in for [str(e)] in the examples; the texts Python builds are
    longer and depend on the platform. *)
Definition sample_str (e : exn) : string :=
  match e with
  | IndexError => "pop from empty list"
  | FileExistsError path => "[Errno 17] File exists: " +:+ path
  | OSError path => "[Errno 13] Permission denied: " +:+ path
  | UnicodeDecodeError why => why
  | UnicodeEncodeError text => "codec cannot encode characters"
  end.

(** Two consoles: one that encodes every text, one that encodes the texts
    made of ASCII characters only. *)
Definition any_text (s : string) : bool := true.

Definition ascii_only (s : string) : bool :=
  forallb (fun c => Nat.ltb (nat_of_ascii c) 128) (list_ascii_of_string s).

(** A working directory [C:\w] that lists [A], [notes.txt], [B], [C]; the
    three directories are empty but for a [README.md] that [C] has. *)
Definition work : string := "C:" +:+ bslash +:+ "w".

Definition abc_fs : fsys :=
  mkFS work
    (<["A" := Dir]> (<["B" := Dir]> (<["C" := Dir]>
      (<["notes.txt" := File (Text "hello")]>
        (<[TestPy.cur_path work "C" := File (Text "keep me")]> ∅)))))
    {[ work := ["A"; "notes.txt"; "B"; "C"] ]}
    ∅ any_text.

Definition abc_world : world := mkW abc_fs [] [].

(** A working directory that holds one regular file and no directory. *)
Definition flat_fs : fsys :=
  mkFS work
    (<["notes.txt" := File (Text "hello")]> ∅)
    {[ work := ["notes.txt"] ]}
    ∅ any_text.

Definition flat_world : world := mkW flat_fs [] [].

(** A folder [/srv] with two text files, a log, a sub-directory and a file
    that is not UTF-8. *)
Definition srv_fs : fsys :=
  mkFS "/"
    (<["/srv" := Dir]> (<["/srv/a.txt" := File (Text "alpha")]>
      (<["/srv/b.log" := File (Text "beta")]>
        (<["/srv/sub" := Dir]>
          (<["/srv/bad.txt" := File (Garbled "invalid start byte")]>
            (<["/srv/c.txt" := File (Text "gamma")]> ∅))))))
    {[ "/srv" := ["a.txt"; "b.log"; "sub"; "bad.txt"; "c.txt"] ]}
    ∅ any_text.

Definition srv_world : world := mkW srv_fs [] [].

(** ** The entry point of [print_file.py] *)

(** What can stop the entry point: [input] at the end of standard input,
    or an exception that the printer lets through. *)
Inductive main_exn : Type :=
| EOFError
| Uncaught (e : exn).

(** The terminal: the lines still to be typed on standard input, and the
    prompts [input] has written so far.  A prompt is written as it is,
    without a line feed, and the entry point writes both before the printer
    prints anything. *)
Record terminal : Type := mkT {
  typed : list string;
  prompted : list string
}.

(** [input(prompt)]: writes the prompt, then takes the next line, without
    its line feed; [None] stands for [EOFError]. *)
Definition input (prompt : string) (t : terminal)
  : terminal * option string :=
  match typed t with
  | [] => (mkT [] (prompted t ++ [prompt]), None)
  | line :: rest => (mkT rest (prompted t ++ [prompt]), Some line)
  end.

Section Main.

Variable join : string -> string -> string.
Variable basename : string -> string.
Variable str_exn : exn -> string.
(** [str.strip], the library's. *)
Variable strip : string -> string.

(** The block under [if __name__ == "__main__"]. *)
Definition main (t : terminal) (w : world)
  : terminal * world * (main_exn + unit) :=
  match input "enter folder path: " t with
  | (t1, None) => (t1, w, inl EOFError)
  | (t1, Some line1) =>
      let folder := strip line1 in
      match input "Enter the file extension to filter" t1 with
      | (t2, None) => (t2, w, inl EOFError)
      | (t2, Some line2) =>
          let file_type := strip line2 in
          match print_all_files_in_folder join basename str_exn folder
                  (extension_argument file_type) w with
          | (w', inl e) => (t2, w', inl (Uncaught e))
          | (w', inr _) => (t2, w', inr tt)
          end
      end
  end.

End Main.

(** More sample data.  A [strip] for texts of ASCII characters: the
    characters [str.isspace] holds of below 128 are 9 to 13, 28 to 31 and
    the space. *)
Definition isspace (c : ascii) : bool :=
  let n := nat_of_ascii c in
  (Nat.leb 9 n && Nat.leb n 13) || (Nat.leb 28 n && Nat.leb n 31)
  || Nat.eqb n 32.

Fixpoint lstrip (s : string) : string :=
  match s with
  | EmptyString => ""
  | String c rest => if isspace c then lstrip rest else s
  end.

Definition sample_strip (s : string) : string :=
  String.rev (lstrip (String.rev (lstrip s))).

(** The directories [A], [B], [C], [D], where [C] holds a directory named
    [README.md]. *)
Definition blocked_fs : fsys :=
  mkFS work
    (<["A" := Dir]> (<["B" := Dir]> (<["C" := Dir]> (<["D" := Dir]>
      (<[TestPy.cur_path work "C" := Dir]> ∅)))))
    {[ work := ["A"; "B"; "C"; "D"] ]}
    ∅ any_text.

(** [srv_fs] with the listing of [/srv] refused. *)
Definition locked_fs : fsys :=
  mkFS (cwd srv_fs) (nodes srv_fs) (dirents srv_fs) {[ "/srv" ]} any_text.

(** A name with a byte outside ASCII, and file systems whose standard
    output encodes ASCII only:
    - [odd_fs]: a working directory with the directories [A], the odd name
      and [C];
    - [odd_folder_fs]: a folder [/tmp/odd] that lists a text file of the
      odd name, then [z.txt];
    - [odd_dir_fs]: a folder of the odd name that lists [bad.txt], which
      does not decode, then [z.txt];
    - [odd_text_fs]: a folder [/tmp/odd] with a file [a.txt] whose text is
      the odd name. *)
Definition odd : string := "B" +:+ String (ascii_of_nat 255) EmptyString.

Definition odd_fs : fsys :=
  mkFS work
    (<["A" := Dir]> (<[odd := Dir]> (<["C" := Dir]> ∅)))
    {[ work := ["A"; odd; "C"] ]}
    ∅ ascii_only.

Definition odd_folder_fs : fsys :=
  mkFS "/"
    (<["/tmp/odd" := Dir]>
      (<["/tmp/odd/" +:+ odd := File (Text "one")]>
        (<["/tmp/odd/z.txt" := File (Text "two")]> ∅)))
    {[ "/tmp/odd" := [odd; "z.txt"] ]}
    ∅ ascii_only.

Definition odd_dir : string := "/tmp/" +:+ odd.

Definition odd_dir_fs : fsys :=
  mkFS "/"
    (<[odd_dir := Dir]>
      (<[odd_dir +:+ "/bad.txt" := File (Garbled "invalid start byte")]>
        (<[odd_dir +:+ "/z.txt" := File (Text "two")]> ∅)))
    {[ odd_dir := ["bad.txt"; "z.txt"] ]}
    ∅ ascii_only.

Definition odd_text_fs : fsys :=
  mkFS "/"
    (<["/tmp/odd" := Dir]> (<["/tmp/odd/a.txt" := File (Text odd)]> ∅))
    {[ "/tmp/odd" := ["a.txt"] ]}
    ∅ ascii_only.

Lemma comprehension_isdir (names : list string) (w : world) :
  comprehension names isdir w
  = (mkW (fs w) (out w) (log w ++ (EvIsDir <$> names)),
     inr (List.filter (is_dir (fs w)) names)).
Proof.
  revert w. induction names as [|x rest IH]; intros w.
  - cbn. rewrite app_nil_r. by destruct w.
  - cbn [comprehension]. unfold bind at 1. cbn.
    unfold bind at 1. rewrite IH. cbn.
    rewrite <- app_assoc. cbn.
    by destruct (is_dir (fs w) x).
Qed.

Lemma for_each_app {A} (l1 l2 : list A) (body : A -> M unit) (w : world) :
  for_each (l1 ++ l2) body w
  = match for_each l1 body w with
    | (w', inl e) => (w', inl e)
    | (w', inr _) => for_each l2 body w'
    end.
Proof.
  revert w. induction l1 as [|x l1 IH]; intros w; [done|].
  cbn [for_each app]. unfold bind.
  destruct (body x w) as [w1 [e|[]]]; [done|]. apply IH.
Qed.

(** ** [test.py]: one turn of the loop *)

Section TestLoop.

Variable base : string.

Lemma body_present (d : string) (w : world) :
  is_file (fs w) (TestPy.cur_path base d) = true ->
  TestPy.body base d w
  = (mkW (fs w) (out w) (log w ++ [EvIsFile (TestPy.cur_path base d)]), inr tt).
Proof.
  intros H. unfold TestPy.body, bind, isfile, emit. cbn. by rewrite H.
Qed.

Lemma body_absent (d : string) (w : world) :
  nodes (fs w) !! TestPy.cur_path base d = None ->
  TestPy.cur_path base d ∉ denied (fs w) ->
  encodes (fs w) ("File Created " +:+ TestPy.cur_path base d) = true ->
  TestPy.body base d w
  = (mkW (create (fs w) (TestPy.cur_path base d))
         (out w ++ ["File Created " +:+ TestPy.cur_path base d])
         (log w ++ [EvIsFile (TestPy.cur_path base d);
                    EvCreate (TestPy.cur_path base d)]),
     inr tt).
Proof.
  intros Hn Hd He.
  unfold TestPy.body, bind, isfile, open_x, print, emit, is_file.
  cbn. rewrite Hn. cbn. rewrite Hn.
  destruct (decide _) as [|_]; [done|]. cbn. rewrite He.
  by rewrite <- app_assoc.
Qed.

(** The file is created before its line is printed: when the line cannot be
    encoded the turn raises, and the file is there. *)
Lemma body_muted (d : string) (w : world) :
  nodes (fs w) !! TestPy.cur_path base d = None ->
  TestPy.cur_path base d ∉ denied (fs w) ->
  encodes (fs w) ("File Created " +:+ TestPy.cur_path base d) = false ->
  TestPy.body base d w
  = (mkW (create (fs w) (TestPy.cur_path base d)) (out w)
         (log w ++ [EvIsFile (TestPy.cur_path base d);
                    EvCreate (TestPy.cur_path base d)]),
     inl (UnicodeEncodeError
            ("File Created " +:+ TestPy.cur_path base d))).
Proof.
  intros Hn Hd He.
  unfold TestPy.body, bind, isfile, open_x, print, emit, is_file.
  cbn. rewrite Hn. cbn. rewrite Hn.
  destruct (decide _) as [|_]; [done|]. cbn. rewrite He.
  by rewrite <- app_assoc.
Qed.

Lemma body_blocked (d : string) (w : world) :
  passable (fs w) (TestPy.cur_path base d) = false ->
  TestPy.body base d w
  = (mkW (fs w) (out w)
         (log w ++ [EvIsFile (TestPy.cur_path base d);
                    EvCreate (TestPy.cur_path base d)]),
     inl (match nodes (fs w) !! TestPy.cur_path base d with
          | Some _ => FileExistsError (TestPy.cur_path base d)
          | None => OSError (TestPy.cur_path base d)
          end)).
Proof.
  unfold passable. intros H.
  apply orb_false_iff in H as [Hf H].
  unfold TestPy.body, bind, isfile, open_x, print, emit. cbn. rewrite Hf. cbn.
  rewrite <- app_assoc. cbn.
  destruct (nodes (fs w) !! TestPy.cur_path base d) as [n|] eqn:Hn; [done|].
  destruct (decide _) as [|Hd]; [done|].
  rewrite bool_decide_eq_true_2 in H by done.
  rewrite bool_decide_eq_true_2 in H by done. done.
Qed.

End TestLoop.

(** ** Strings *)

Lemma list_ascii_app (a b : string) :
  list_ascii_of_string (a +:+ b)
  = list_ascii_of_string a ++ list_ascii_of_string b.
Proof.
  induction a as [|c a IH]; [done|].
  change (String c a +:+ b) with (String c (a +:+ b)).
  cbn [list_ascii_of_string]. by rewrite IH.
Qed.

Lemma string_app_inv_tail (a b t : string) : a +:+ t = b +:+ t -> a = b.
Proof.
  intros H. apply (f_equal list_ascii_of_string) in H.
  rewrite !list_ascii_app in H. apply app_inv_tail in H.
  apply (f_equal string_of_list_ascii) in H.
  by rewrite !string_of_list_ascii_of_string in H.
Qed.

Lemma string_app_assoc (a b c : string) : (a +:+ b) +:+ c = a +:+ b +:+ c.
Proof.
  induction a as [|x a IH]; [done|].
  change (String x a +:+ b) with (String x (a +:+ b)).
  change (String x (a +:+ b) +:+ c) with (String x ((a +:+ b) +:+ c)).
  change (String x a +:+ b +:+ c) with (String x (a +:+ b +:+ c)).
  by rewrite IH.
Qed.

Lemma cur_path_inj (base d d' : string) :
  TestPy.cur_path base d = TestPy.cur_path base d' -> d = d'.
Proof.
  unfold TestPy.cur_path. intros H.
  apply (inj (String.app base)) in H.
  apply (inj (String.app bslash)) in H.
  by apply string_app_inv_tail in H.
Qed.

(** ** [test.py]: the loop *)

Section TestRun.

Variable base : string.

Local Abbreviation path d := (TestPy.cur_path base d).
Local Abbreviation loop l := (for_each l (TestPy.body base)).

Lemma body_cases (d : string) (w : world) :
  (is_file (fs w) (path d) = true
   /\ TestPy.body base d w
      = (mkW (fs w) (out w) (log w ++ [EvIsFile (path d)]), inr tt))
  \/ (nodes (fs w) !! path d = None /\ (path d ∉ denied (fs w))
      /\ encodes (fs w) ("File Created " +:+ path d) = true
      /\ TestPy.body base d w
         = (mkW (create (fs w) (path d))
                (out w ++ ["File Created " +:+ path d])
                (log w ++ [EvIsFile (path d); EvCreate (path d)]),
            inr tt))
  \/ (passable (fs w) (path d) = false
      /\ TestPy.body base d w
         = (mkW (fs w) (out w)
                (log w ++ [EvIsFile (path d); EvCreate (path d)]),
            inl (match nodes (fs w) !! path d with
                 | Some _ => FileExistsError (path d)
                 | None => OSError (path d)
                 end)))
  \/ (nodes (fs w) !! path d = None /\ (path d ∉ denied (fs w))
      /\ encodes (fs w) ("File Created " +:+ path d) = false
      /\ TestPy.body base d w
         = (mkW (create (fs w) (path d)) (out w)
                (log w ++ [EvIsFile (path d); EvCreate (path d)]),
            inl (UnicodeEncodeError ("File Created " +:+ path d)))).
Proof.
  destruct (passable (fs w) (path d)) eqn:Hp.
  - unfold passable in Hp. apply orb_true_iff in Hp as [Hf|Hc].
    + left. split; [done|]. by apply body_present.
    + apply andb_true_iff in Hc as [Hn Hd].
      apply bool_decide_eq_true in Hn, Hd.
      destruct (encodes (fs w) ("File Created " +:+ path d)) eqn:He.
      * right; left. repeat split; [done..|]. by apply body_absent.
      * right; right; right. repeat split; [done..|]. by apply body_muted.
  - right; right; left. split; [done|]. by apply body_blocked.
Qed.

Lemma grows_refl (paths : list string) (w : world) : grows paths w w.
Proof.
  split; try done.
  - by left.
  - exists []. split; [by rewrite app_nil_r|]. by intros s ?%elem_of_nil.
  - exists []. split; [by rewrite app_nil_r|]. by intros s ?%elem_of_nil.
Qed.

Lemma grows_weaken (p : string) (paths : list string) (w w' : world) :
  grows paths w w' -> grows (p :: paths) w w'.
Proof.
  intros [? ? ? ? Hnew [more [? Hm]] [steps [? Hs]]]. split; try done.
  - intros q Hq. destruct (Hnew q Hq) as [|[? ?]]; [by left|right].
    split; [done|by right].
  - exists more. split; [done|]. intros s Hin.
    destruct (Hm s Hin) as (q & ? & ?). exists q. split; [by right|done].
  - exists steps. split; [done|]. intros e Hin.
    destruct (Hs e Hin) as (q & ? & ?). exists q. split; [by right|done].
Qed.

Lemma grows_step (p : string) (paths : list string) (w w1 w2 : world) :
  grows [p] w w1 -> grows paths w1 w2 -> grows (p :: paths) w w2.
Proof.
  intros [Hc1 He1 Hd1 Hk1 Hn1 [m1 [Ho1 Hm1]] [s1 [Hl1 Hs1]]]
         [Hc2 He2 Hd2 Hk2 Hn2 [m2 [Ho2 Hm2]] [s2 [Hl2 Hs2]]].
  split.
  - congruence.
  - congruence.
  - congruence.
  - auto.
  - intros q Hq. destruct (Hn1 q Hq) as [Hq1|[Hq1 Hin]].
    + destruct (Hn2 q Hq1) as [|[? ?]]; [by left|right].
      split; [done|by right].
    + right. split; [by apply Hk2|].
      apply list_elem_of_singleton in Hin as ->. by left.
  - exists (m1 ++ m2). split; [by rewrite Ho2, Ho1, app_assoc|].
    intros s [Hin|Hin]%elem_of_app.
    + destruct (Hm1 s Hin) as (q & ->%list_elem_of_singleton & ?).
      exists p. split; [by left|done].
    + destruct (Hm2 s Hin) as (q & ? & ?). exists q. split; [by right|done].
  - exists (s1 ++ s2). split; [by rewrite Hl2, Hl1, app_assoc|].
    intros e [Hin|Hin]%elem_of_app.
    + destruct (Hs1 e Hin) as (q & ->%list_elem_of_singleton & ?).
      exists p. split; [by left|done].
    + destruct (Hs2 e Hin) as (q & ? & ?). exists q. split; [by right|done].
Qed.

Lemma body_grows (d : string) (w : world) :
  grows [path d] w (fst (TestPy.body base d w)).
Proof.
  assert (forall out',
    nodes (fs w) !! path d = None ->
    (exists more, out' = out w ++ more
       /\ forall s, s ∈ more ->
            exists p, p ∈ [path d] /\ s = "File Created " +:+ p) ->
    grows [path d] w
      (mkW (create (fs w) (path d)) out'
           (log w ++ [EvIsFile (path d); EvCreate (path d)]))) as Hcreated.
  { intros out' Hn Hout. split; try done; cbn.
    - intros p n Hp. rewrite lookup_insert_ne; [done|congruence].
    - intros p Hp. destruct (decide (path d = p)) as [<-|Hne].
      + right. rewrite lookup_insert_eq. split; [done|by left].
      + left. by rewrite lookup_insert_ne.
    - eexists. split; [done|]. intros e He. exists (path d).
      split; [by left|].
      apply elem_of_cons in He as [-> | ->%list_elem_of_singleton]; auto. }
  destruct (body_cases d w)
    as [[Hf ->]|[(Hn & Hd & He & ->)|[(Hp & ->)|(Hn & Hd & He & ->)]]];
    cbn [fst].
  - split; try done; cbn.
    + by left.
    + exists []. split; [by rewrite app_nil_r|]. by intros s ?%elem_of_nil.
    + eexists. split; [done|]. intros e ->%list_elem_of_singleton.
      exists (path d). split; [by left|by left].
  - apply (Hcreated _ Hn). eexists. split; [done|].
    intros s ->%list_elem_of_singleton.
    exists (path d). split; [by left|done].
  - split; try done; cbn.
    + by left.
    + exists []. split; [by rewrite app_nil_r|]. by intros s ?%elem_of_nil.
    + eexists. split; [done|]. intros e' He. exists (path d).
      split; [by left|].
      apply elem_of_cons in He as [-> | ->%list_elem_of_singleton]; auto.
  - apply (Hcreated _ Hn). exists [].
    split; [by rewrite app_nil_r|]. by intros s ?%elem_of_nil.
Qed.

Lemma loop_grows (l : list string) (w : world) :
  grows (TestPy.cur_path base <$> l) w (fst (loop l w)).
Proof.
  revert w. induction l as [|d l IH]; intros w; [apply grows_refl|].
  cbn [for_each fmap list_fmap]. unfold bind.
  pose proof (body_grows d w) as Hb.
  destruct (TestPy.body base d w) as [w1 [e|[]]]; cbn [fst] in *.
  - apply grows_step with w1; [done|apply grows_refl].
  - apply grows_step with w1; [done|apply IH].
Qed.

End TestRun.

Section TestWhole.

Variable base : string.

Local Abbreviation path d := (TestPy.cur_path base d).
Local Abbreviation loop l := (for_each l (TestPy.body base)).

Lemma grows_in_out (paths : list string) (w w' : world) (s : string) :
  grows paths w w' -> s ∈ out w -> s ∈ out w'.
Proof.
  intros [_ _ _ _ _ [more [-> _]] _] Hin. apply elem_of_app. by left.
Qed.

Lemma grows_in_log (paths : list string) (w w' : world) (e : event) :
  grows paths w w' -> e ∈ log w -> e ∈ log w'.
Proof.
  intros [_ _ _ _ _ _ [steps [-> _]]] Hin. apply elem_of_app. by left.
Qed.

Lemma grows_is_dir (paths : list string) (w w' : world) (p : string) :
  grows paths w w' -> is_dir (fs w') p = is_dir (fs w) p.
Proof.
  intros G. unfold is_dir.
  destruct (nodes (fs w) !! p) as [n|] eqn:Hn.
  - by rewrite (grows_keeps _ _ _ G _ _ Hn).
  - destruct (grows_new _ _ _ G _ Hn) as [->|[-> _]]; done.
Qed.

Lemma grows_list_dir (paths : list string) (w w' : world) (p : string) :
  grows paths w w' -> list_dir (fs w') p = list_dir (fs w) p.
Proof.
  intros G. unfold list_dir.
  by rewrite (grows_denied _ _ _ G), (grows_dirents _ _ _ G).
Qed.

Lemma passable_create (f : fsys) (p q : string) :
  passable f q = true -> passable (create f p) q = true.
Proof.
  unfold passable, is_file, create. cbn. intros H.
  destruct (decide (p = q)) as [->|Hne].
  - by rewrite lookup_insert_eq.
  - by rewrite lookup_insert_ne.
Qed.

Lemma reportable_create (f : fsys) (p d : string) :
  reportable f base d = true -> reportable (create f p) base d = true.
Proof.
  unfold reportable, is_file, create. cbn. intros H.
  destruct (decide (p = path d)) as [->|Hne].
  - by rewrite lookup_insert_eq.
  - by rewrite lookup_insert_ne.
Qed.

(** When every path is passable and every directory reportable the loop
    runs to its end, has looked at every directory, and has put an empty
    file, announced on the console, wherever nothing was. *)
Lemma loop_passes (l : list string) (w : world) :
  forallb (fun d => passable (fs w) (path d)) l = true ->
  forallb (reportable (fs w) base) l = true ->
  snd (loop l w) = inr tt
  /\ forall d, d ∈ l ->
       EvIsFile (path d) ∈ log (fst (loop l w))
       /\ is_file (fs (fst (loop l w))) (path d) = true
       /\ (nodes (fs w) !! path d = None ->
           nodes (fs (fst (loop l w))) !! path d = Some (File (Text ""))
           /\ ("File Created " +:+ path d) ∈ out (fst (loop l w))
           /\ EvCreate (path d) ∈ log (fst (loop l w))).
Proof.
  revert w. induction l as [|x l IH]; intros w Hall Hrep.
  { split; [done|]. by intros d ?%elem_of_nil. }
  cbn [forallb] in Hall, Hrep.
  apply andb_true_iff in Hall as [Hx Hall].
  apply andb_true_iff in Hrep as [Hrx Hrep].
  cbn [for_each]. unfold bind.
  pose proof (loop_grows base l) as G.
  destruct (body_cases base x w)
    as [[Hf ->]|[(Hn & Hd & He & ->)|[(Hp & ->)|(Hn & Hd & He & Hb)]]];
    [| |congruence|].
  3:{ unfold reportable, is_file in Hrx. rewrite Hn, He in Hrx. done. }
  - set (w1 := mkW (fs w) (out w) (log w ++ [EvIsFile (path x)])) in *.
    destruct (IH w1 Hall Hrep) as [Hok Hrest]. split; [done|].
    specialize (G w1).
    intros d [->|Hin]%elem_of_cons; [|by apply Hrest].
    split; [|split].
    + eapply grows_in_log; [done|]. apply elem_of_app. right. by left.
    + unfold is_file in *.
      destruct (nodes (fs w) !! path x) as [[|data]|] eqn:Hnx; try done.
      by rewrite (grows_keeps _ _ _ G _ _ Hnx).
    + intros Hn. unfold is_file in Hf. by rewrite Hn in Hf.
  - set (w1 := mkW (create (fs w) (path x))
                   (out w ++ ["File Created " +:+ path x])
                   (log w ++ [EvIsFile (path x); EvCreate (path x)])) in *.
    assert (forallb (fun d => passable (fs w1) (path d)) l = true) as Hall1.
    { apply forallb_forall. intros d Hd1.
      apply passable_create.
      by eapply forallb_forall in Hall. }
    assert (forallb (reportable (fs w1) base) l = true) as Hrep1.
    { apply forallb_forall. intros d Hd1.
      apply reportable_create.
      by eapply forallb_forall in Hrep. }
    destruct (IH w1 Hall1 Hrep1) as [Hok Hrest]. split; [done|].
    specialize (G w1).
    assert (nodes (fs w1) !! path x = Some (File (Text ""))) as Hx1
      by apply lookup_insert_eq.
    assert (EvIsFile (path x) ∈ log (fst (loop l w1))
            /\ is_file (fs (fst (loop l w1))) (path x) = true
            /\ nodes (fs (fst (loop l w1))) !! path x = Some (File (Text ""))
            /\ ("File Created " +:+ path x) ∈ out (fst (loop l w1))
            /\ EvCreate (path x) ∈ log (fst (loop l w1))) as Hhead.
    { pose proof (grows_keeps _ _ _ G _ _ Hx1) as Hx2.
      repeat split.
      - eapply grows_in_log; [done|]. apply elem_of_app. right. by left.
      - unfold is_file. by rewrite Hx2.
      - done.
      - eapply grows_in_out; [done|]. apply elem_of_app. right. by left.
      - eapply grows_in_log; [done|]. apply elem_of_app. right.
        right. by left. }
    intros d [->|Hin]%elem_of_cons; [by intuition|].
    destruct (Hrest d Hin) as (Hl & Hf & Hnew).
    split; [done|]. split; [done|]. intros Hnd.
    destruct (decide (path x = path d)) as [Heq|Hne].
    + rewrite <- Heq. by intuition.
    + apply Hnew. cbn. by rewrite lookup_insert_ne.
Qed.

(** A second pass over the same directories, started on the file system the
    first pass left, changes nothing, prints nothing and ends as the first
    pass did, unless the first pass stopped on a line that could not be
    printed. *)
Lemma loop_again (l : list string) (w w2 : world) :
  (forall line, snd (loop l w) <> inl (UnicodeEncodeError line)) ->
  fs w2 = fs (fst (loop l w)) ->
  fs (fst (loop l w2)) = fs w2
  /\ out (fst (loop l w2)) = out w2
  /\ snd (loop l w2) = snd (loop l w)
  /\ (snd (loop l w) = inr tt ->
      log (fst (loop l w2))
      = log w2 ++ ((fun d => EvIsFile (path d)) <$> l)).
Proof.
  revert w w2. induction l as [|x l IH]; intros w w2 Hne Hfs.
  { cbn. by rewrite app_nil_r. }
  cbn [for_each] in *. unfold bind in *.
  pose proof (loop_grows base l) as G.
  assert (forall w1 : world,
    fs w2 = fs (fst (loop l w1)) ->
    is_file (fs w1) (path x) = true ->
    is_file (fs w2) (path x) = true) as Hstay.
  { intros w1 E Hf. rewrite E. specialize (G w1). unfold is_file in *.
    destruct (nodes (fs w1) !! path x) as [[|data]|] eqn:Hn; try done.
    by rewrite (grows_keeps _ _ _ G _ _ Hn). }
  destruct (body_cases base x w)
    as [[Hf Hb]|[(Hn & Hd & He & Hb)|[(Hp & Hb)|(Hn & Hd & He & Hb)]]];
    rewrite Hb in *; cbn [fst snd] in *.
  4:{ by destruct (Hne ("File Created " +:+ path x)). }
  - set (w1 := mkW (fs w) (out w) (log w ++ [EvIsFile (path x)])) in *.
    rewrite (body_present base x w2) by (by apply (Hstay w1)).
    set (w3 := mkW _ _ _).
    destruct (IH w1 w3 Hne Hfs) as (E1 & E2 & E3 & E4).
    repeat split; try done.
    intros Hok. rewrite (E4 Hok). subst w3. cbn.
    by rewrite <- app_assoc.
  - set (w1 := mkW (create (fs w) (path x)) _ _) in *.
    rewrite (body_present base x w2).
    2:{ apply (Hstay w1); [done|]. unfold is_file. cbn.
        by rewrite lookup_insert_eq. }
    set (w3 := mkW _ _ _).
    destruct (IH w1 w3 Hne Hfs) as (E1 & E2 & E3 & E4).
    repeat split; try done.
    intros Hok. rewrite (E4 Hok). subst w3. cbn.
    by rewrite <- app_assoc.
  - rewrite (body_blocked base x w2) by (by rewrite Hfs).
    cbn [fst snd]. rewrite Hfs. done.
Qed.

End TestWhole.

(** ** [test.py]: the script *)

Lemma script_unlisted (w : world) (e : exn) :
  list_dir (fs w) (cwd (fs w)) = inl e ->
  TestPy.script w
  = (mkW (fs w) (out w) (log w ++ [EvListDir (cwd (fs w))]), inl e).
Proof.
  intros H. unfold TestPy.script, bind, getcwd, listdir, emit. cbn.
  by rewrite H.
Qed.

Lemma script_listed (w : world) (names : list string) :
  list_dir (fs w) (cwd (fs w)) = inr names ->
  TestPy.script w
  = let w1 := mkW (fs w) (out w)
                  (log w ++ EvListDir (cwd (fs w)) :: (EvIsDir <$> names)) in
    match List.filter (is_dir (fs w)) names with
    | [] => (w1, inl IndexError)
    | _ :: rest => for_each rest (TestPy.body (cwd (fs w))) w1
    end.
Proof.
  intros H. unfold TestPy.script, bind at 1 2, getcwd, listdir, emit. cbn.
  rewrite H. unfold bind at 1. rewrite comprehension_isdir. cbn.
  rewrite <- app_assoc. cbn.
  by destruct (List.filter _ _).
Qed.

Lemma script_keeps (w : world) (p : string) (n : node) :
  nodes (fs w) !! p = Some n ->
  nodes (fs (fst (TestPy.script w))) !! p = Some n.
Proof.
  intros Hp.
  destruct (list_dir (fs w) (cwd (fs w))) as [e|names] eqn:Hl.
  - by rewrite (script_unlisted w e Hl).
  - rewrite (script_listed w names Hl). cbn zeta.
    destruct (List.filter _ _) as [|first rest]; [done|].
    by apply (grows_keeps _ _ _ (loop_grows _ rest _)).
Qed.

Lemma filter_fmap_none {A} (g : A -> event) (test : event -> bool)
    (l : list A) :
  (forall a, test (g a) = false) -> List.filter test (g <$> l) = [].
Proof.
  intros H. induction l as [|a l IH]; [done|].
  cbn. by rewrite H.
Qed.

(** ** [test.py]: the properties *)


(** C2.  A run never changes what a path already holds: a [README.md] that
    exists before the run, with whatever content, is there unchanged after
    it, and so is every other file and directory. *)
Theorem existing_readme_untouched (w : world) (p : string) (n : node) :
  nodes (fs w) !! p = Some n ->
  nodes (fs (fst (TestPy.script w))) !! p = Some n.
Proof. apply script_keeps. Qed.

(** C3, as amended.  Unless the first run stopped on a line that standard
    output could not encode, a second run, started where the first one
    stopped, leaves the file system as the first run left it, prints
    nothing, and ends as the first run ended; when the first run ended
    normally, the second creates no file. *)
Theorem second_run_changes_nothing (w : world) :
  (forall line, snd (TestPy.script w) <> inl (UnicodeEncodeError line)) ->
  fs (fst (TestPy.script (fst (TestPy.script w)))) = fs (fst (TestPy.script w))
  /\ out (fst (TestPy.script (fst (TestPy.script w))))
     = out (fst (TestPy.script w))
  /\ snd (TestPy.script (fst (TestPy.script w))) = snd (TestPy.script w)
  /\ (snd (TestPy.script w) = inr tt ->
      List.filter is_create (log (fst (TestPy.script (fst (TestPy.script w)))))
      = List.filter is_create (log (fst (TestPy.script w)))).
Proof.
  destruct (list_dir (fs w) (cwd (fs w))) as [e|names] eqn:Hl.
  { rewrite (script_unlisted w e Hl). cbn [fst snd]. intros _.
    by rewrite (script_unlisted (mkW _ _ _) e Hl). }
  rewrite (script_listed w names Hl). cbn zeta.
  destruct (List.filter (is_dir (fs w)) names) as [|first rest] eqn:Hdirs.
  { cbn [fst snd]. intros _. rewrite (script_listed (mkW _ _ _) names Hl).
    cbn [fs out log]. by rewrite Hdirs. }
  intros Hne.
  set (w1 := mkW (fs w) (out w) _).
  pose proof (loop_grows (cwd (fs w)) rest w1) as G.
  set (run1 := for_each rest (TestPy.body (cwd (fs w))) w1) in *.
  assert (cwd (fs (fst run1)) = cwd (fs w)) as Hcwd
    by apply (grows_cwd _ _ _ G).
  assert (list_dir (fs (fst run1)) (cwd (fs (fst run1))) = inr names) as Hl2.
  { rewrite Hcwd. by rewrite (grows_list_dir _ _ _ _ G). }
  rewrite (script_listed (fst run1) names Hl2). cbn zeta.
  rewrite (List.filter_ext _ (is_dir (fs w)))
    by (intros p; apply (grows_is_dir _ _ _ _ G)).
  rewrite Hdirs, Hcwd.
  set (w2 := mkW (fs (fst run1)) (out (fst run1)) _).
  destruct (loop_again (cwd (fs w)) rest w1 w2 Hne eq_refl)
    as (E1 & E2 & E3 & E4).
  repeat split; try done.
  intros Hok. rewrite (E4 Hok). subst w2. cbn [log].
  rewrite !List.filter_app. cbn.
  rewrite !filter_fmap_none by done. by rewrite !app_nil_r.
Qed.


(** C9.  When the listing of the working directory holds no directory, the
    run stops on the [IndexError] of [pop(0)]: the file system is as it
    was, nothing has been printed, and the only system calls made are the
    listing and the directory tests of the listed names, so no
    [README.md] has been looked for or created. *)
Theorem no_subdirectory_raises (w : world) (names : list string) :
  list_dir (fs w) (cwd (fs w)) = inr names ->
  List.filter (is_dir (fs w)) names = [] ->
  TestPy.script w
  = (mkW (fs w) (out w)
         (log w ++ EvListDir (cwd (fs w)) :: (EvIsDir <$> names)),
     inl IndexError).
Proof.
  intros Hl Hdirs. rewrite (script_listed w names Hl). cbn zeta.
  by rewrite Hdirs.
Qed.

(** ** [print_file.py]: one file *)

Section PrintFileFacts.

Variable join : string -> string -> string.
Variable basename : string -> string.
Variable str_exn : exn -> string.

Local Abbreviation opening p := (opening_banner basename p).
Local Abbreviation closing p := (closing_banner basename p).
Local Abbreviation failure p e := (read_error str_exn p e).
Local Abbreviation expect f p := (report basename str_exn f p).
Local Abbreviation show p := (print_file_contents basename str_exn p).
Local Abbreviation show_all folder ext :=
  (print_all_files_in_folder join basename str_exn folder ext).

Local Ltac run_show :=
  cbv [print_file_contents try_except bind open_r read print emit ret raise
       fst snd fs out log].

Local Ltac split_show :=
  repeat match goal with
    | |- context [decide (?p ∈ denied ?f)] =>
        destruct (decide (p ∈ denied f))
    | |- context [nodes ?f !! ?p] =>
        destruct (nodes f !! p) as [[|[?|?]]|]
    | |- context [encodes ?f ?x] => destruct (encodes f x) eqn:?
    end.

(** The printing of a file leaves the file system alone, and what it
    prints, the calls it makes and the way it ends depend on the file
    system only. *)
Lemma show_run (p : string) (w : world) :
  show p w
  = (mkW (fs w) (out w ++ prints (show p) (fs w))
         (log w ++ calls (show p) (fs w)),
     outcome (show p) (fs w)).
Proof.
  unfold prints, calls, outcome. run_show.
  destruct w as [f printed logged].
  split_show; cbn; by rewrite <- ?app_assoc, ?app_nil_r.
Qed.

(** The only exception that leaves [print_file_contents] is that of the
    handler's own [print], on an error line that cannot be encoded. *)
Lemma show_raises (p : string) (w : world) (e : exn) :
  snd (show p w) = inl e ->
  exists e0,
    e = UnicodeEncodeError (failure p e0)
    /\ encodes (fs w) (failure p e0) = false.
Proof.
  destruct w as [f printed logged]. run_show.
  split_show; cbn; intros [=]; simplify_eq; eauto.
Qed.

Lemma show_opens_once (p : string) (f : fsys) :
  List.filter is_open (calls (show p) f) = [EvOpen p].
Proof.
  unfold calls. run_show. by split_show.
Qed.

Lemma show_text (p s : string) (w : world) :
  p ∉ denied (fs w) ->
  nodes (fs w) !! p = Some (File (Text s)) ->
  encodes (fs w) (opening p) = true ->
  encodes (fs w) s = true ->
  encodes (fs w) (closing p) = true ->
  show p w
  = (mkW (fs w) (out w ++ [opening p; s; closing p])
         (log w ++ [EvOpen p; EvRead p]),
     inr tt).
Proof.
  destruct w as [f printed logged]. cbn [fs out log].
  intros Hd Hn H1 H2 H3. run_show.
  destruct (decide _) as [|_]; [done|].
  rewrite Hn, H1, H2, H3. by rewrite <- !app_assoc.
Qed.

Lemma show_garbled (p why : string) (w : world) :
  p ∉ denied (fs w) ->
  nodes (fs w) !! p = Some (File (Garbled why)) ->
  encodes (fs w) (opening p) = true ->
  encodes (fs w) (failure p (UnicodeDecodeError why)) = true ->
  show p w
  = (mkW (fs w)
         (out w ++ [opening p; failure p (UnicodeDecodeError why)])
         (log w ++ [EvOpen p; EvRead p]),
     inr tt).
Proof.
  destruct w as [f printed logged]. cbn [fs out log].
  intros Hd Hn H1 H2. run_show.
  destruct (decide _) as [|_]; [done|].
  rewrite Hn, H1, H2. by rewrite <- !app_assoc.
Qed.

Lemma show_refused (p : string) (w : world) :
  (p ∈ denied (fs w) \/ is_file (fs w) p = false) ->
  encodes (fs w) (failure p (OSError p)) = true ->
  show p w
  = (mkW (fs w) (out w ++ [failure p (OSError p)]) (log w ++ [EvOpen p]),
     inr tt).
Proof.
  destruct w as [f printed logged]. cbn [fs out log].
  intros H H1. run_show.
  destruct (decide _) as [|Hd]; [by rewrite H1|].
  destruct H as [|Hf]; [done|]. unfold is_file in Hf.
  destruct (nodes f !! p) as [[|data]|]; by rewrite ?H1.
Qed.

(** When standard output can encode the lines of its report, the printing
    of a file prints that report and returns normally. *)
Lemma show_reports (p : string) (w : world) :
  forallb (encodes (fs w)) (expect (fs w) p) = true ->
  exists steps,
    show p w
    = (mkW (fs w) (out w ++ expect (fs w) p) (log w ++ steps), inr tt)
    /\ List.filter is_open steps = [EvOpen p].
Proof.
  unfold report. intros H.
  destruct (decide (p ∈ denied (fs w))) as [Hd|Hd].
  { cbn in H. rewrite andb_true_r in H.
    rewrite show_refused by (by try left). by eexists. }
  destruct (nodes (fs w) !! p) as [[|[s|why]]|] eqn:Hn; cbn in H.
  - rewrite andb_true_r in H.
    rewrite show_refused
      by (try done; right; unfold is_file; by rewrite Hn).
    by eexists.
  - apply andb_true_iff in H as [H1 H].
    apply andb_true_iff in H as [H2 H]. rewrite andb_true_r in H.
    rewrite (show_text p s w) by done. by eexists.
  - apply andb_true_iff in H as [H1 H]. rewrite andb_true_r in H.
    rewrite (show_garbled p why w) by done. by eexists.
  - rewrite andb_true_r in H.
    rewrite show_refused
      by (try done; right; unfold is_file; by rewrite Hn).
    by eexists.
Qed.


(** ** [print_file.py]: the folder *)

(** Standard output can encode every line of the reports of the chosen
    files of a listing. *)
Local Abbreviation console_takes f folder ext names :=
  (forallb (fun n => forallb (encodes f) (expect f (join folder n)))
     (chosen join f folder ext names)).

(** The loop of [print_all_files_in_folder] over a listing. *)
Lemma entries_run (folder : string) (ext : option string)
    (names : list string) (w : world) :
  console_takes (fs w) folder ext names = true ->
  exists steps,
    for_each names (entry join basename str_exn folder ext) w
    = (mkW (fs w)
           (out w ++ concat ((fun n => expect (fs w) (join folder n))
                             <$> chosen join (fs w) folder ext names))
           (log w ++ steps),
       inr tt)
    /\ List.filter is_open steps
       = (fun n => EvOpen (join folder n))
         <$> chosen join (fs w) folder ext names.
Proof.
  revert w. induction names as [|n names IH]; intros w Htakes.
  { exists []. cbn. rewrite !app_nil_r. by destruct w. }
  cbn [for_each]. unfold bind at 1, entry at 1, bind at 1, isfile.
  unfold bind at 1, emit. cbn [fst snd fs out log].
  unfold chosen in *. cbn [List.filter] in *.
  destruct (is_file (fs w) (join folder n)) eqn:Hf; cbn [andb] in *;
    [destruct (extension_matches ext n) eqn:Hx|].
  - cbn [forallb] in Htakes. apply andb_true_iff in Htakes as [Hn Htakes].
    set (w0 := mkW (fs w) (out w) _).
    destruct (show_reports (join folder n) w0 Hn) as (first & -> & Hfirst).
    subst w0. cbn [fs out log].
    set (w1 := mkW _ _ _).
    destruct (IH w1 Htakes) as (steps & -> & Hopen). subst w1.
    cbn [fs out log].
    eexists. split.
    + rewrite <- !app_assoc. cbn [fmap list_fmap concat]. reflexivity.
    + cbn [app List.filter is_open]. rewrite List.filter_app.
      by rewrite Hfirst, Hopen.
  - unfold ret. set (w1 := mkW _ _ _).
    destruct (IH w1 Htakes) as (steps & -> & Hopen). subst w1.
    cbn [fs out log].
    eexists. split; [by rewrite <- !app_assoc|done].
  - unfold ret. set (w1 := mkW _ _ _).
    destruct (IH w1 Htakes) as (steps & -> & Hopen). subst w1.
    cbn [fs out log].
    eexists. split; [by rewrite <- !app_assoc|done].
Qed.

Lemma entry_run (folder : string) (ext : option string) (n : string)
    (w : world) :
  entry join basename str_exn folder ext n w
  = if is_file (fs w) (join folder n) && extension_matches ext n
    then show (join folder n)
           (mkW (fs w) (out w) (log w ++ [EvIsFile (join folder n)]))
    else (mkW (fs w) (out w) (log w ++ [EvIsFile (join folder n)]), inr tt).
Proof.
  unfold entry, bind at 1, isfile, bind at 1, emit. cbn [fst snd fs out log].
  by destruct (is_file _ _), (extension_matches _ _).
Qed.

(** Whatever standard output takes, the loop leaves the file system alone,
    and the only exception that leaves it is that of a line that cannot be
    encoded. *)
Lemma entries_any (folder : string) (ext : option string)
    (names : list string) (w : world) :
  fs (fst (for_each names (entry join basename str_exn folder ext) w)) = fs w
  /\ forall e,
       snd (for_each names (entry join basename str_exn folder ext) w)
       = inl e ->
       exists line,
         e = UnicodeEncodeError line /\ encodes (fs w) line = false.
Proof.
  revert w. induction names as [|n names IH]; intros w; [done|].
  cbn [for_each]. unfold bind. rewrite entry_run.
  set (w0 := mkW (fs w) (out w) _).
  destruct (is_file (fs w) (join folder n) && extension_matches ext n);
    [|apply (IH w0)].
  pose proof (show_raises (join folder n) w0) as Hraise.
  rewrite show_run in *. cbn [fst snd fs] in *.
  destruct (outcome (show (join folder n)) (fs w0)) as [e|[]].
  - cbn. split; [done|]. intros e' ?. simplify_eq.
    destruct (Hraise e' eq_refl) as (e0 & -> & ?). by eexists.
  - set (w1 := mkW _ _ _). apply (IH w1).
Qed.

Lemma show_all_invalid (folder : string) (ext : option string) (w : world) :
  is_dir (fs w) folder = false ->
  show_all folder ext w
  = if encodes (fs w) (invalid_directory folder)
    then (mkW (fs w) (out w ++ [invalid_directory folder])
              (log w ++ [EvIsDir folder]),
          inr tt)
    else (mkW (fs w) (out w) (log w ++ [EvIsDir folder]),
          inl (UnicodeEncodeError (invalid_directory folder))).
Proof.
  intros Hd.
  unfold print_all_files_in_folder, bind at 1, isdir, bind at 1, emit.
  cbn [fs out log]. rewrite Hd. cbn [negb]. unfold print. by cbn.
Qed.

Lemma show_all_unlisted (folder : string) (ext : option string) (w : world)
    (e : exn) :
  is_dir (fs w) folder = true ->
  list_dir (fs w) folder = inl e ->
  show_all folder ext w
  = (mkW (fs w) (out w) (log w ++ [EvIsDir folder; EvListDir folder]),
     inl e).
Proof.
  intros Hd Hl.
  unfold print_all_files_in_folder, bind at 1, isdir, bind at 1, emit.
  cbn [fs out log]. rewrite Hd. cbn [negb].
  unfold bind at 1, listdir, bind at 1, emit. cbn [fs out log]. rewrite Hl.
  by rewrite <- app_assoc.
Qed.

Lemma show_all_entries (folder : string) (ext : option string)
    (names : list string) (w : world) :
  is_dir (fs w) folder = true ->
  list_dir (fs w) folder = inr names ->
  show_all folder ext w
  = for_each names (entry join basename str_exn folder ext)
      (mkW (fs w) (out w) (log w ++ [EvIsDir folder; EvListDir folder])).
Proof.
  intros Hd Hl.
  unfold print_all_files_in_folder, bind at 1, isdir, bind at 1, emit.
  cbn [fs out log]. rewrite Hd. cbn [negb].
  unfold bind at 1, listdir, bind at 1, emit. cbn [fs out log]. rewrite Hl.
  by rewrite <- app_assoc.
Qed.

Lemma show_all_run (folder : string) (ext : option string)
    (names : list string) (w : world) :
  is_dir (fs w) folder = true ->
  list_dir (fs w) folder = inr names ->
  console_takes (fs w) folder ext names = true ->
  exists steps,
    show_all folder ext w
    = (mkW (fs w)
           (out w ++ concat ((fun n => expect (fs w) (join folder n))
                             <$> chosen join (fs w) folder ext names))
           (log w ++ EvIsDir folder :: EvListDir folder :: steps),
       inr tt)
    /\ List.filter is_open steps
       = (fun n => EvOpen (join folder n))
         <$> chosen join (fs w) folder ext names.
Proof.
  intros Hd Hl Htakes. rewrite (show_all_entries folder ext names w Hd Hl).
  set (w1 := mkW (fs w) _ _).
  destruct (entries_run folder ext names w1 Htakes) as (steps & -> & Hopen).
  subst w1. cbn [fs out log] in *. exists steps.
  split; [by rewrite <- !app_assoc|done].
Qed.

Lemma show_all_listed (folder : string) (ext : option string)
    (names : list string) (f : fsys) :
  is_dir f folder = true ->
  list_dir f folder = inr names ->
  console_takes f folder ext names = true ->
  outcome (show_all folder ext) f = inr tt
  /\ after (show_all folder ext) f = f
  /\ prints (show_all folder ext) f
     = concat ((fun n => expect f (join folder n))
               <$> chosen join f folder ext names)
  /\ List.filter is_open (calls (show_all folder ext) f)
     = (fun n => EvOpen (join folder n)) <$> chosen join f folder ext names.
Proof.
  intros Hd Hl Htakes. unfold outcome, after, prints, calls.
  destruct (show_all_run folder ext names (mkW f [] []) Hd Hl Htakes)
    as (steps & -> & Hopen).
  done.
Qed.


Lemma elem_of_chosen (folder : string) (ext : option string) (f : fsys)
    (names : list string) (n : string) :
  n ∈ chosen join f folder ext names
  <-> n ∈ names
      /\ is_file f (join folder n) = true
      /\ match ext with
         | None => True
         | Some suffix => endswith n suffix = true
         end.
Proof.
  unfold chosen. rewrite !list_elem_of_In, List.filter_In, andb_true_iff.
  unfold extension_matches. destruct ext; intuition.
Qed.

(** ** [print_file.py]: the properties *)

(** C4, as amended.  On a valid folder whose listing is [names], and when
    standard output can encode the lines to print, the printer ends
    normally and leaves the file system alone; it opens the chosen names
    and no others, in the order of the listing, and prints for each of them
    its report, which for a file that is read is the opening banner, the
    contents and the closing banner.  A name is chosen when it is a regular
    file of the folder and ends with the extension, or, without an
    extension, when it is a regular file; a name that is a sub-directory is
    never chosen. *)
Theorem prints_chosen_files_in_order (folder : string) (ext : option string)
    (names : list string) (f : fsys) :
  is_dir f folder = true ->
  list_dir f folder = inr names ->
  console_takes f folder ext names = true ->
  outcome (show_all folder ext) f = inr tt
  /\ after (show_all folder ext) f = f
  /\ prints (show_all folder ext) f
     = concat ((fun n => expect f (join folder n))
               <$> chosen join f folder ext names)
  /\ (forall n s,
        join folder n ∉ denied f ->
        nodes f !! join folder n = Some (File (Text s)) ->
        expect f (join folder n)
        = [opening (join folder n); s; closing (join folder n)])
  /\ List.filter is_open (calls (show_all folder ext) f)
     = (fun n => EvOpen (join folder n)) <$> chosen join f folder ext names
  /\ (forall n,
        n ∈ chosen join f folder ext names
        <-> n ∈ names
            /\ is_file f (join folder n) = true
            /\ match ext with
               | None => True
               | Some suffix => endswith n suffix = true
               end)
  /\ (forall n,
        is_dir f (join folder n) = true ->
        n ∉ chosen join f folder ext names).
Proof.
  intros Hd Hl Htakes.
  destruct (show_all_listed folder ext names f Hd Hl Htakes)
    as (H1 & H2 & H3 & H4).
  refine (conj H1 (conj H2 (conj H3 (conj _ (conj H4 (conj _ _)))))).
  - intros n s Hden Hn. unfold report.
    destruct (decide _) as [|_]; [done|]. by rewrite Hn.
  - intros n. apply elem_of_chosen.
  - intros n Hn (_ & Hf & _)%elem_of_chosen.
    unfold is_dir, is_file in *.
    by destruct (nodes f !! join folder n) as [[|data]|].
Qed.


(** C6, as amended.  On a path that is not an existing directory, and when
    standard output can encode the line, the printer prints the one line
    [Error: '<path>' is not a valid directory.], lists nothing, opens
    nothing, and returns without raising. *)
Theorem invalid_folder_reported (folder : string) (ext : option string)
    (w : world) :
  is_dir (fs w) folder = false ->
  encodes (fs w) ("Error: '" +:+ folder +:+ "' is not a valid directory.")
  = true ->
  show_all folder ext w
  = (mkW (fs w)
         (out w ++ ["Error: '" +:+ folder +:+ "' is not a valid directory."])
         (log w ++ [EvIsDir folder]),
     inr tt).
Proof.
  intros Hd He. rewrite show_all_invalid by done.
  unfold invalid_directory. by rewrite He.
Qed.

(** C8, as amended.  For a file that is read, and when standard output can
    encode the banners and the contents, the printer prints the opening
    banner, the contents and the closing banner; on the console this is: an
    empty line, the line [=== Contents of <base name> ===], an empty line,
    the contents and a line feed, an empty line, the line
    [=== End of <base name> ===] and an empty line. *)
Theorem readable_file_wrapped (p s : string) (w : world) :
  p ∉ denied (fs w) ->
  nodes (fs w) !! p = Some (File (Text s)) ->
  encodes (fs w) (opening p) = true ->
  encodes (fs w) s = true ->
  encodes (fs w) (closing p) = true ->
  show p w
  = (mkW (fs w) (out w ++ [opening p; s; closing p])
         (log w ++ [EvOpen p; EvRead p]),
     inr tt)
  /\ console_text [opening p; s; closing p]
     = nl +:+ "=== Contents of " +:+ basename p +:+ " ===" +:+ nl
       +:+ nl
       +:+ s +:+ nl
       +:+ nl +:+ "=== End of " +:+ basename p +:+ " ===" +:+ nl
       +:+ nl.
Proof.
  intros Hd Hn H1 H2 H3. split; [by apply show_text|].
  cbn [console_text]. unfold opening_banner, closing_banner.
  by rewrite !string_app_assoc.
Qed.

(** C10, as amended.  For a file that opens but whose bytes do not decode,
    and when standard output can encode the banner and the error line, the
    printer prints the opening banner, then the error line, and no closing
    banner; it returns without raising. *)
Theorem failed_read_leaves_banner_open (p why : string) (w : world) :
  p ∉ denied (fs w) ->
  nodes (fs w) !! p = Some (File (Garbled why)) ->
  encodes (fs w) (opening p) = true ->
  encodes (fs w) (failure p (UnicodeDecodeError why)) = true ->
  show p w
  = (mkW (fs w)
         (out w ++ [opening p; failure p (UnicodeDecodeError why)])
         (log w ++ [EvOpen p; EvRead p]),
     inr tt)
  /\ closing p ∉ [opening p; failure p (UnicodeDecodeError why)].
Proof.
  intros Hd Hn H1 H2. split; [by apply show_garbled|].
  intros [H|H%list_elem_of_singleton]%elem_of_cons.
  - apply (f_equal (String.get 5)) in H. vm_compute in H. discriminate.
  - apply (f_equal (String.get 0)) in H. vm_compute in H. discriminate.
Qed.

End PrintFileFacts.
(** ** The properties on the sample file systems *)

Example endswith_txt :
  endswith "a.txt" ".txt" = true /\ endswith "b.log" ".txt" = false
  /\ endswith "txt" ".txt" = false /\ endswith "a.txt" "" = true.
Proof. by vm_compute. Qed.

Example empty_extension_is_no_filter :
  extension_argument "" = None /\ extension_argument ".txt" = Some ".txt".
Proof. by vm_compute. Qed.

Example posix_paths :
  posix_join "/srv" "a.txt" = "/srv/a.txt"
  /\ posix_join "/srv/" "a.txt" = "/srv/a.txt"
  /\ posix_basename "/srv/a.txt" = "a.txt".
Proof. by vm_compute. Qed.

Example abc_run :
  prints TestPy.script abc_fs = ["File Created " +:+ TestPy.cur_path work "B"]
  /\ calls TestPy.script abc_fs
     = [EvListDir work; EvIsDir "A"; EvIsDir "notes.txt"; EvIsDir "B";
        EvIsDir "C"; EvIsFile (TestPy.cur_path work "B");
        EvCreate (TestPy.cur_path work "B"); EvIsFile (TestPy.cur_path work "C")]
  /\ outcome TestPy.script abc_fs = inr tt.
Proof. by vm_compute. Qed.

Example srv_run :
  prints (print_all_files_in_folder posix_join posix_basename sample_str
            "/srv" (Some ".txt")) srv_fs
  = [ nl +:+ "=== Contents of a.txt ===" +:+ nl; "alpha";
      nl +:+ "=== End of a.txt ===" +:+ nl;
      nl +:+ "=== Contents of bad.txt ===" +:+ nl;
      "Error reading file '/srv/bad.txt': invalid start byte";
      nl +:+ "=== Contents of c.txt ===" +:+ nl; "gamma";
      nl +:+ "=== End of c.txt ===" +:+ nl ].
Proof. by vm_compute. Qed.



Lemma existing_readme_untouched_abc :
  nodes (fs (fst (TestPy.script abc_world))) !! TestPy.cur_path work "C"
  = Some (File (Text "keep me")).
Proof.
  apply (existing_readme_untouched abc_world). vm_compute. reflexivity.
Defined.

(** C3 as stated fails where the working directory holds no directory: the
    second run raises, as the first one did.  It also fails where the
    first run stops on a line that cannot be printed: the second run finds
    the file of that line, goes on, and creates the [README.md] of [C],
    which the first run had not reached. *)
Lemma second_run_raises_without_directories :
  (snd (TestPy.script (fst (TestPy.script flat_world))) = inl IndexError
   /\ snd (TestPy.script (fst (TestPy.script flat_world))) <> inr tt)
  /\ (nodes (fs (fst (TestPy.script (mkW odd_fs [] []))))
       !! TestPy.cur_path work "C" = None
      /\ nodes (fs (fst (TestPy.script
                           (fst (TestPy.script (mkW odd_fs [] []))))))
          !! TestPy.cur_path work "C" = Some (File (Text ""))).
Proof.
  split; split; by vm_compute.
Qed.

Lemma second_run_changes_nothing_abc :
  snd (TestPy.script abc_world) = inr tt
  /\ List.filter is_create
       (log (fst (TestPy.script (fst (TestPy.script abc_world)))))
     = [EvCreate (TestPy.cur_path work "B")].
Proof.
  assert (snd (TestPy.script abc_world) = inr tt) as Hok
    by (vm_compute; reflexivity).
  destruct (second_run_changes_nothing abc_world) as (_ & _ & _ & H).
  { intros line Hline. rewrite Hok in Hline. discriminate Hline. }
  split; [exact Hok|]. etrans; [exact (H Hok)|]. vm_compute. reflexivity.
Defined.



Lemma no_subdirectory_raises_flat :
  TestPy.script flat_world
  = (mkW flat_fs [] [EvListDir work; EvIsDir "notes.txt"], inl IndexError).
Proof.
  apply (no_subdirectory_raises flat_world ["notes.txt"]).
  - vm_compute. reflexivity.
  - vm_compute. reflexivity.
Defined.

Lemma prints_chosen_files_in_order_srv :
  chosen posix_join srv_fs "/srv" (Some ".txt")
    ["a.txt"; "b.log"; "sub"; "bad.txt"; "c.txt"]
  = ["a.txt"; "bad.txt"; "c.txt"]
  /\ List.filter is_open
       (calls (print_all_files_in_folder posix_join posix_basename
                 sample_str "/srv" (Some ".txt")) srv_fs)
     = [EvOpen "/srv/a.txt"; EvOpen "/srv/bad.txt"; EvOpen "/srv/c.txt"].
Proof.
  assert (is_dir srv_fs "/srv" = true) as H1 by (vm_compute; reflexivity).
  assert (list_dir srv_fs "/srv"
          = inr ["a.txt"; "b.log"; "sub"; "bad.txt"; "c.txt"]) as H2
    by (vm_compute; reflexivity).
  assert (forallb
            (fun n => forallb (encodes srv_fs)
                        (report posix_basename sample_str srv_fs
                           (posix_join "/srv" n)))
            (chosen posix_join srv_fs "/srv" (Some ".txt")
               ["a.txt"; "b.log"; "sub"; "bad.txt"; "c.txt"]) = true) as H3
    by (vm_compute; reflexivity).
  destruct (prints_chosen_files_in_order posix_join posix_basename
              sample_str "/srv" (Some ".txt") _ srv_fs H1 H2 H3)
    as (_ & _ & _ & _ & R & _).
  split; [vm_compute; reflexivity|].
  etrans; [exact R|]. vm_compute. reflexivity.
Defined.

(** C4 as stated fails where standard output cannot encode a file's name:
    the batch stops on the first file, nothing is printed, and [z.txt], a
    regular file of the folder, is never opened. *)
Lemma unprintable_name_stops_the_batch :
  chosen posix_join odd_folder_fs "/tmp/odd" None [odd; "z.txt"]
  = [odd; "z.txt"]
  /\ prints (print_all_files_in_folder posix_join posix_basename sample_str
               "/tmp/odd" None) odd_folder_fs = []
  /\ List.filter is_open
       (calls (print_all_files_in_folder posix_join posix_basename
                 sample_str "/tmp/odd" None) odd_folder_fs)
     = [EvOpen ("/tmp/odd/" +:+ odd)]
  /\ outcome (print_all_files_in_folder posix_join posix_basename
                sample_str "/tmp/odd" None) odd_folder_fs <> inr tt.
Proof.
  split; [by vm_compute|]. split; [by vm_compute|]. split; [by vm_compute|].
  vm_compute. discriminate.
Qed.



Lemma invalid_folder_reported_srv :
  print_all_files_in_folder posix_join posix_basename sample_str
    "/nowhere" None srv_world
  = (mkW srv_fs ["Error: '/nowhere' is not a valid directory."]
         [EvIsDir "/nowhere"],
     inr tt).
Proof.
  apply (invalid_folder_reported posix_join posix_basename sample_str
           "/nowhere" None srv_world).
  - vm_compute. reflexivity.
  - vm_compute. reflexivity.
Defined.

(** C6 as stated fails where standard output cannot encode the path: the
    printer prints nothing and raises. *)
Lemma unprintable_folder_path_raises :
  is_dir odd_folder_fs ("/no/" +:+ odd) = false
  /\ print_all_files_in_folder posix_join posix_basename sample_str
       ("/no/" +:+ odd) None (mkW odd_folder_fs [] [])
     = (mkW odd_folder_fs [] [EvIsDir ("/no/" +:+ odd)],
        inl (UnicodeEncodeError
               ("Error: '" +:+ ("/no/" +:+ odd)
                +:+ "' is not a valid directory."))).
Proof. split; by vm_compute. Qed.

Lemma readable_file_wrapped_srv :
  console_text
    (prints (print_file_contents posix_basename sample_str "/srv/a.txt")
       srv_fs)
  = nl +:+ "=== Contents of a.txt ===" +:+ nl +:+ nl
    +:+ "alpha" +:+ nl
    +:+ nl +:+ "=== End of a.txt ===" +:+ nl +:+ nl.
Proof.
  destruct (readable_file_wrapped posix_basename sample_str
              "/srv/a.txt" "alpha" srv_world) as [Hrun Htext].
  - apply not_elem_of_empty.
  - vm_compute. reflexivity.
  - vm_compute. reflexivity.
  - vm_compute. reflexivity.
  - vm_compute. reflexivity.
  - unfold prints. etrans; [exact (f_equal _ (f_equal _ (f_equal _ Hrun)))|].
    etrans; [exact Htext|]. vm_compute. reflexivity.
Defined.

(** C8 as stated fails: the text printed for a file does not begin with
    the opening banner line but with an empty line, and another empty line
    follows the closing banner.  It also fails for a file that is read and
    whose contents standard output cannot encode: the opening banner is
    followed by an error line, and there is no closing banner. *)
Lemma wrapped_text_starts_with_empty_line :
  (String.get 0
     (console_text
        (prints (print_file_contents posix_basename sample_str "/srv/a.txt")
           srv_fs))
   = String.get 0 nl
   /\ console_text
        (prints (print_file_contents posix_basename sample_str "/srv/a.txt")
           srv_fs)
      <> "=== Contents of a.txt ===" +:+ nl +:+ nl
         +:+ "alpha" +:+ nl
         +:+ nl +:+ "=== End of a.txt ===" +:+ nl)
  /\ (nodes odd_text_fs !! "/tmp/odd/a.txt" = Some (File (Text odd))
      /\ prints (print_file_contents posix_basename sample_str
                   "/tmp/odd/a.txt") odd_text_fs
         = [nl +:+ "=== Contents of a.txt ===" +:+ nl;
            "Error reading file '/tmp/odd/a.txt': "
            +:+ "codec cannot encode characters"]).
Proof.
  split; split; by vm_compute.
Qed.

Lemma failed_read_leaves_banner_open_srv :
  prints (print_file_contents posix_basename sample_str "/srv/bad.txt") srv_fs
  = [ nl +:+ "=== Contents of bad.txt ===" +:+ nl;
      "Error reading file '/srv/bad.txt': invalid start byte" ].
Proof.
  destruct (failed_read_leaves_banner_open posix_basename sample_str
              "/srv/bad.txt" "invalid start byte" srv_world) as [Hrun _].
  - apply not_elem_of_empty.
  - vm_compute. reflexivity.
  - vm_compute. reflexivity.
  - vm_compute. reflexivity.
  - unfold prints. etrans; [exact (f_equal _ (f_equal _ Hrun))|].
    vm_compute. reflexivity.
Defined.

(** C10 as stated fails where standard output cannot encode the error line:
    for [bad.txt] in the folder of the odd name the opening banner is
    printed, the read fails, the error line raises; no error message
    follows the banner and the call raises. *)
Lemma unprintable_error_line_leaves_banner_alone :
  nodes odd_dir_fs !! (odd_dir +:+ "/bad.txt")
  = Some (File (Garbled "invalid start byte"))
  /\ prints (print_file_contents posix_basename sample_str
               (odd_dir +:+ "/bad.txt")) odd_dir_fs
     = [nl +:+ "=== Contents of bad.txt ===" +:+ nl]
  /\ outcome (print_file_contents posix_basename sample_str
                (odd_dir +:+ "/bad.txt")) odd_dir_fs
     <> inr tt.
Proof.
  split; [by vm_compute|]. split; [by vm_compute|]. vm_compute. discriminate.
Qed.

(** ** [test.py]: how a run can end *)

Section TestEnds.

Variable base : string.

Local Abbreviation path d := (TestPy.cur_path base d).
Local Abbreviation line d := ("File Created " +:+ TestPy.cur_path base d).
Local Abbreviation loop l := (for_each l (TestPy.body base)).




(** A pass over a list that holds a directory whose path is not passable,
    or which is not reportable, raises. *)
Lemma loop_stops (l : list string) (w : world) (d : string) :
  d ∈ l ->
  passable (fs w) (path d) && reportable (fs w) base d = false ->
  snd (loop l w) <> inr tt.
Proof.
  revert w. induction l as [|x l IH]; intros w Hin Hpd.
  { by apply elem_of_nil in Hin. }
  cbn [for_each]. unfold bind.
  assert (passable (fs w) (path x) && reportable (fs w) base x = true ->
          d ∈ l) as Hrest.
  { intros Hx. apply elem_of_cons in Hin as [->|Hin]; [congruence|done]. }
  destruct (body_cases base x w)
    as [[Hf Hb]|[(Hn & Hd & He & Hb)|[(Hp & Hb)|(Hn & Hd & He & Hb)]]];
    rewrite Hb; cbn [snd]; [| |done..].
  - apply IH; [|done]. apply Hrest. unfold passable, reportable.
    by rewrite Hf.
  - assert (passable (fs w) (path x) && reportable (fs w) base x = true)
      as Hx.
    { unfold passable, reportable.
      rewrite !bool_decide_eq_true_2 by done. rewrite He.
      by rewrite !orb_true_r. }
    pose proof (Hrest Hx) as Hdl.
    apply IH; [done|]. cbn [fs].
    destruct (decide (path x = path d)) as [Heq|Hne].
    { apply cur_path_inj in Heq as ->. congruence. }
    unfold passable, reportable, is_file, create in *. cbn.
    by rewrite lookup_insert_ne.
Qed.

End TestEnds.

(** X1.  The script ends normally exactly when the working directory can be
    listed, the listing holds a directory, and every directory after the
    first is passable and reportable: its [README.md] is there, or nothing
    is at the path, the creation is not refused and standard output can
    encode the line of the creation. *)
Theorem script_ends_normally_iff (w : world) :
  snd (TestPy.script w) = inr tt
  <-> exists names first rest,
        list_dir (fs w) (cwd (fs w)) = inr names
        /\ List.filter (is_dir (fs w)) names = first :: rest
        /\ forallb (fun d => passable (fs w) (TestPy.cur_path (cwd (fs w)) d))
             rest = true
        /\ forallb (reportable (fs w) (cwd (fs w))) rest = true.
Proof.
  split.
  - destruct (list_dir (fs w) (cwd (fs w))) as [e|names] eqn:Hl.
    { by rewrite (script_unlisted w e Hl). }
    rewrite (script_listed w names Hl). cbn zeta.
    destruct (List.filter _ _) as [|first rest] eqn:Hdirs; [done|].
    intros Hok. exists names, first, rest. split; [done|]. split; [done|].
    assert (forall d, d ∈ rest ->
            passable (fs w) (TestPy.cur_path (cwd (fs w)) d)
            && reportable (fs w) (cwd (fs w)) d = true) as Hall.
    { intros d Hd.
      destruct (passable (fs w) (TestPy.cur_path (cwd (fs w)) d)
                && reportable (fs w) (cwd (fs w)) d) eqn:Hp; [done|].
      by eapply loop_stops in Hok. }
    split; apply forallb_forall; intros d Hd%list_elem_of_In;
      by destruct (andb_prop _ _ (Hall d Hd)).
  - intros (names & first & rest & Hl & Hdirs & Hpass & Hrep).
    rewrite (script_listed w names Hl). cbn zeta. rewrite Hdirs.
    by apply loop_passes.
Qed.

(** ** [test.py]: what a run writes and prints *)

Lemma grows_frame (paths : list string) (w w' : world) (p : string) :
  grows paths w w' -> p ∉ paths ->
  nodes (fs w') !! p = nodes (fs w) !! p.
Proof.
  intros G Hp. destruct (nodes (fs w) !! p) as [n|] eqn:Hn.
  - by apply (grows_keeps _ _ _ G).
  - by destruct (grows_new _ _ _ G _ Hn) as [|[_ ?]].
Qed.

(** X3.  The only change a run ever makes to the file system is a new empty
    [README.md] for a name of the listing that is a directory and comes
    after the first directory; this holds for the runs that raise as well.
    Nothing is removed or rewritten, and a listed name that is not a
    directory gets nothing. *)
Theorem only_new_empty_readmes (w : world) :
  cwd (fs (fst (TestPy.script w))) = cwd (fs w)
  /\ dirents (fs (fst (TestPy.script w))) = dirents (fs w)
  /\ denied (fs (fst (TestPy.script w))) = denied (fs w)
  /\ forall p,
       nodes (fs (fst (TestPy.script w))) !! p = nodes (fs w) !! p
       \/ (nodes (fs w) !! p = None
           /\ nodes (fs (fst (TestPy.script w))) !! p = Some (File (Text ""))
           /\ exists names first rest d,
                list_dir (fs w) (cwd (fs w)) = inr names
                /\ List.filter (is_dir (fs w)) names = first :: rest
                /\ d ∈ rest
                /\ is_dir (fs w) d = true
                /\ p = TestPy.cur_path (cwd (fs w)) d).
Proof.
  destruct (list_dir (fs w) (cwd (fs w))) as [e|names] eqn:Hl.
  { rewrite (script_unlisted w e Hl). cbn. repeat split; by left. }
  rewrite (script_listed w names Hl). cbn zeta.
  destruct (List.filter _ _) as [|first rest] eqn:Hdirs.
  { cbn. repeat split; by left. }
  set (w1 := mkW (fs w) (out w) _).
  pose proof (loop_grows (cwd (fs w)) rest w1) as G.
  split; [apply (grows_cwd _ _ _ G)|].
  split; [apply (grows_dirents _ _ _ G)|].
  split; [apply (grows_denied _ _ _ G)|].
  intros p. destruct (nodes (fs w) !! p) as [n|] eqn:Hn.
  - left. by apply (grows_keeps _ _ _ G).
  - destruct (grows_new _ _ _ G _ Hn) as [Hnone|[Hnew Hin]]; [by left|].
    right. split; [done|]. split; [done|].
    apply list_elem_of_fmap in Hin as (d & -> & Hd).
    exists names, first, rest, d. repeat split; try done.
    assert (In d (List.filter (is_dir (fs w)) names)) as Hfd.
    { rewrite Hdirs. right. by apply list_elem_of_In. }
    by apply List.filter_In in Hfd as [_ ?].
Qed.

Section TestReports.

Variable base : string.

Local Abbreviation path d := (TestPy.cur_path base d).
Local Abbreviation loop l := (for_each l (TestPy.body base)).
Local Abbreviation missing f := (fun d => negb (is_file f (path d))).

(** Over directories listed once each, with no creation refused and every
    line printable, a pass prints one line, and makes one creation, for
    each directory that had no [README.md], in order. *)
Lemma loop_reports (l : list string) (w : world) :
  NoDup l ->
  forallb (fun d => passable (fs w) (path d)) l = true ->
  forallb (reportable (fs w) base) l = true ->
  out (fst (loop l w))
  = out w ++ ((fun d => "File Created " +:+ path d)
              <$> List.filter (missing (fs w)) l)
  /\ List.filter is_create (log (fst (loop l w)))
     = List.filter is_create (log w)
       ++ ((fun d => EvCreate (path d)) <$> List.filter (missing (fs w)) l).
Proof.
  revert w. induction l as [|x l IH]; intros w Hnd Hall Hrep.
  { cbn. by rewrite !app_nil_r. }
  apply NoDup_cons in Hnd as [Hx Hnd].
  cbn [forallb] in Hall, Hrep.
  apply andb_true_iff in Hall as [Hpx Hall].
  apply andb_true_iff in Hrep as [Hrx Hrep].
  cbn [for_each List.filter]. unfold bind.
  destruct (body_cases base x w)
    as [[Hf Hb]|[(Hn & Hd & He & Hb)|[(Hp & Hb)|(Hn & Hd & He & Hb)]]];
    rewrite Hb; [| |congruence|].
  3:{ unfold reportable, is_file in Hrx. rewrite Hn, He in Hrx. done. }
  - rewrite Hf. cbn [negb].
    destruct (IH (mkW (fs w) (out w) (log w ++ [EvIsFile (path x)]))
                Hnd Hall Hrep)
      as [-> ->].
    cbn [fs out log]. split; [done|].
    rewrite List.filter_app. cbn. by rewrite app_nil_r.
  - assert (is_file (fs w) (path x) = false) as Hf
      by (unfold is_file; by rewrite Hn).
    rewrite Hf. cbn [negb fmap list_fmap].
    set (w1 := mkW (create (fs w) (path x)) _ _).
    assert (forall d, d ∈ l ->
            is_file (fs w1) (path d) = is_file (fs w) (path d)) as Hsame.
    { intros d Hin. unfold is_file. cbn.
      rewrite lookup_insert_ne; [done|].
      intros ->%cur_path_inj. done. }
    assert (forallb (fun d => passable (fs w1) (path d)) l = true) as Hall1.
    { apply forallb_forall. intros d Hd1. apply passable_create.
      by eapply forallb_forall in Hall. }
    assert (forallb (reportable (fs w1) base) l = true) as Hrep1.
    { apply forallb_forall. intros d Hd1. apply reportable_create.
      by eapply forallb_forall in Hrep. }
    destruct (IH w1 Hnd Hall1 Hrep1) as [-> ->].
    rewrite (List.filter_ext_in (missing (fs w1)) (missing (fs w)))
      by (intros d Hin%list_elem_of_In; by rewrite Hsame).
    subst w1. cbn [fs out log]. split.
    + by rewrite <- app_assoc.
    + rewrite List.filter_app. cbn. by rewrite <- app_assoc.
Qed.

End TestReports.

(** X4.  With the directories of the listing [first :: rest], [rest] without
    a repeated name, no creation refused and every line of a creation
    printable, the console shows one line [File Created <path>] for each
    directory of [rest] that had no [README.md], in the order of the
    listing, and nothing else; the files created are those of these lines.
    A directory that has its [README.md] gives no line. *)
Theorem one_line_per_created_readme
    (f : fsys) (names rest : list string) (first : string) :
  list_dir f (cwd f) = inr names ->
  List.filter (is_dir f) names = first :: rest ->
  NoDup rest ->
  forallb (fun d => passable f (TestPy.cur_path (cwd f) d)) rest = true ->
  forallb (reportable f (cwd f)) rest = true ->
  prints TestPy.script f
  = (fun d => "File Created " +:+ TestPy.cur_path (cwd f) d)
    <$> List.filter
          (fun d => negb (is_file f (TestPy.cur_path (cwd f) d))) rest
  /\ List.filter is_create (calls TestPy.script f)
     = (fun d => EvCreate (TestPy.cur_path (cwd f) d))
       <$> List.filter
             (fun d => negb (is_file f (TestPy.cur_path (cwd f) d))) rest.
Proof.
  intros Hl Hdirs Hnd Hpass Hrep. unfold prints, calls.
  rewrite (script_listed (mkW f [] []) names Hl). cbn [fs out log].
  rewrite Hdirs. cbn zeta.
  set (w1 := mkW f [] _).
  destruct (loop_reports (cwd f) rest w1 Hnd Hpass Hrep) as [-> ->].
  subst w1. cbn [fs out log]. split; [done|].
  rewrite app_nil_l. cbn [List.filter is_create].
  by rewrite filter_fmap_none.
Qed.

(** X5.  When the directories before it are passable and reportable, the
    run stops at the first directory, after the first of the listing, in
    which the creation is refused: it raises what [open] raises there, the
    directories before it have their [README.md], nothing is rolled back,
    no other path has changed, and the directories after it are not looked
    at. *)
Theorem first_refusal_stops_the_run
    (f : fsys) (names before after_ : list string) (first d : string) :
  list_dir f (cwd f) = inr names ->
  List.filter (is_dir f) names = first :: before ++ d :: after_ ->
  forallb (fun b => passable f (TestPy.cur_path (cwd f) b)) before = true ->
  forallb (reportable f (cwd f)) before = true ->
  passable f (TestPy.cur_path (cwd f) d) = false ->
  outcome TestPy.script f
  = inl (match nodes f !! TestPy.cur_path (cwd f) d with
         | Some _ => FileExistsError (TestPy.cur_path (cwd f) d)
         | None => OSError (TestPy.cur_path (cwd f) d)
         end)
  /\ (forall b, b ∈ before ->
        is_file (after TestPy.script f) (TestPy.cur_path (cwd f) b) = true)
  /\ (forall p, p ∉ (TestPy.cur_path (cwd f) <$> before) ->
        nodes (after TestPy.script f) !! p = nodes f !! p)
  /\ (forall a, a ∉ before -> a <> d ->
        EvIsFile (TestPy.cur_path (cwd f) a) ∉ calls TestPy.script f).
Proof.
  intros Hl Hdirs Hpass Hrep Hd. unfold outcome, after, calls.
  rewrite (script_listed (mkW f [] []) names Hl). cbn [fs out log].
  rewrite Hdirs. cbn zeta. rewrite app_nil_l.
  set (w1 := mkW f [] _).
  rewrite for_each_app.
  pose proof (loop_grows (cwd f) before w1) as G.
  destruct (loop_passes (cwd f) before w1 Hpass Hrep) as [Hok Hbefore].
  destruct (for_each before (TestPy.body (cwd f)) w1) as [w' r] eqn:Hrun.
  cbn [fst snd] in *. subst r.
  assert (TestPy.cur_path (cwd f) d ∉ (TestPy.cur_path (cwd f) <$> before))
    as Hnotin.
  { intros (b & ->%cur_path_inj & Hb)%list_elem_of_fmap.
    eapply forallb_forall in Hpass; [|by apply list_elem_of_In].
    congruence. }
  pose proof (grows_frame _ _ _ _ G Hnotin) as Hsame. cbn [fs] in Hsame.
  assert (passable (fs w') (TestPy.cur_path (cwd f) d) = false) as Hd'.
  { unfold passable, is_file in *.
    by rewrite Hsame, (grows_denied _ _ _ G). }
  cbn [for_each]. unfold bind.
  rewrite (body_blocked (cwd f) d w' Hd'). cbn [fst snd fs log].
  rewrite Hsame. split; [done|]. split; [|split].
  - intros b Hb. by destruct (Hbefore b Hb) as (_ & ? & _).
  - intros p Hp. by apply (grows_frame _ _ _ _ G).
  - intros a Ha Hne Hin.
    destruct (grows_log _ _ _ G) as (steps & Hlog & Hsteps).
    rewrite Hlog in Hin. cbn [log] in Hin.
    apply elem_of_app in Hin as [[Hin|Hin]%elem_of_app|Hin].
    + apply elem_of_cons in Hin as [?|Hin]; [done|].
      by apply list_elem_of_fmap in Hin as (? & ? & _).
    + destruct (Hsteps _ Hin) as (p & Hp & He).
      apply list_elem_of_fmap in Hp as (b & -> & Hb).
      destruct He as [[= ->%cur_path_inj]|?]; done.
    + apply elem_of_cons in Hin as [[= ->%cur_path_inj]|Hin]; [done|].
      by apply list_elem_of_singleton in Hin.
Qed.

(** ** [print_file.py]: the extension test *)

Lemma string_length_app (a b : string) :
  String.length (a +:+ b) = String.length a + String.length b.
Proof.
  induction a as [|c a IH]; [done|].
  change (String c a +:+ b) with (String c (a +:+ b)).
  cbn [String.length]. by rewrite IH.
Qed.

Lemma substring_whole (s : string) : substring 0 (String.length s) s = s.
Proof. induction s as [|c s IH]; [done|]. cbn. by rewrite IH. Qed.

Lemma substring_app_tail (a b : string) :
  substring (String.length a) (String.length b) (a +:+ b) = b.
Proof.
  induction a as [|c a IH]; [apply substring_whole|].
  change (String c a +:+ b) with (String c (a +:+ b)). by cbn.
Qed.

Lemma substring_split (s : string) (k : nat) :
  k <= String.length s ->
  substring 0 k s +:+ substring k (String.length s - k) s = s.
Proof.
  revert k. induction s as [|c s IH]; intros k Hk.
  { cbn in Hk. by replace k with 0 by lia. }
  destruct k as [|k].
  - rewrite Nat.sub_0_r, substring_whole. done.
  - cbn in Hk. cbn [String.length substring Nat.sub].
    change (String c ?a +:+ ?b) with (String c (a +:+ b)).
    rewrite IH by lia. done.
Qed.

Lemma endswith_iff (s suffix : string) :
  endswith s suffix = true <-> exists stem, s = stem +:+ suffix.
Proof.
  unfold endswith. rewrite andb_true_iff, Nat.leb_le, String.eqb_eq. split.
  - intros [Hle Hsub].
    exists (substring 0 (String.length s - String.length suffix) s).
    pose proof (substring_split s
                  (String.length s - String.length suffix)) as H.
    replace (String.length s - (String.length s - String.length suffix))
      with (String.length suffix) in H by lia.
    rewrite Hsub in H. symmetry. apply H. lia.
  - intros [stem ->]. rewrite string_length_app. split; [lia|].
    replace (String.length stem + String.length suffix
             - String.length suffix) with (String.length stem) by lia.
    apply substring_app_tail.
Qed.

Lemma string_app_empty (s : string) : s +:+ "" = s.
Proof.
  induction s as [|c s IH]; [done|].
  change (String c s +:+ "") with (String c (s +:+ "")). by rewrite IH.
Qed.

(** X9.  A name passes the extension test exactly when it is the extension
    preceded by some text, possibly none: the test looks at the end of the
    name and at nothing else, so the extension [txt] lets [notes.txt]
    through and [mytxt] as well. *)
Theorem extension_test_is_suffix_test (suffix filename : string) :
  extension_matches (Some suffix) filename = true
  <-> exists stem, filename = stem +:+ suffix.
Proof. apply endswith_iff. Qed.

Lemma for_each_ext {A} (l : list A) (f g : A -> M unit) (w : world) :
  (forall x w', f x w' = g x w') -> for_each l f w = for_each l g w.
Proof.
  intros H. revert w. induction l as [|x l IH]; intros w; [done|].
  cbn [for_each]. unfold bind. rewrite H.
  by destruct (g x w) as [w1 [e|[]]].
Qed.

(** ** [print_file.py]: how the printer can end *)

Section PrintFileEnds.

Variable join : string -> string -> string.
Variable basename : string -> string.
Variable str_exn : exn -> string.

Local Abbreviation opening p := (opening_banner basename p).
Local Abbreviation closing p := (closing_banner basename p).
Local Abbreviation failure p e := (read_error str_exn p e).
Local Abbreviation show p := (print_file_contents basename str_exn p).
Local Abbreviation show_all folder ext :=
  (print_all_files_in_folder join basename str_exn folder ext).

(** X6.  The printer never writes: whatever the folder, the extension and the
    way the call ends, the file system is afterwards what it was; the same
    holds for the printing of one file. *)
Theorem printer_never_writes (folder : string) (ext : option string)
    (p : string) (w : world) :
  fs (fst (show_all folder ext w)) = fs w
  /\ fs (fst (show p w)) = fs w.
Proof.
  split; [|by rewrite show_run].
  destruct (is_dir (fs w) folder) eqn:Hd.
  2:{ rewrite show_all_invalid by done. by destruct (encodes _ _). }
  destruct (list_dir (fs w) folder) as [e|names] eqn:Hl.
  - by rewrite (show_all_unlisted join basename str_exn folder ext w e).
  - rewrite (show_all_entries join basename str_exn folder ext names w)
      by done.
    by destruct (entries_any join basename str_exn folder ext names
                   (mkW (fs w) (out w)
                      (log w ++ [EvIsDir folder; EvListDir folder]))).
Qed.

(** X7.  The printer raises in two cases only: the folder is a directory
    and its listing is refused, and then the error is the listing's and
    nothing has been printed; or standard output cannot encode a line, and
    then the error is the [UnicodeEncodeError] of that line.  A path that
    is no directory and a file that cannot be opened or read do not make
    it raise by themselves. *)
Theorem printer_failure_modes (folder : string) (ext : option string)
    (w : world) (e : exn) :
  (is_dir (fs w) folder = true /\ list_dir (fs w) folder = inl e ->
   snd (show_all folder ext w) = inl e
   /\ out (fst (show_all folder ext w)) = out w)
  /\ (snd (show_all folder ext w) = inl e ->
      (is_dir (fs w) folder = true /\ list_dir (fs w) folder = inl e)
      \/ (exists line,
            e = UnicodeEncodeError line /\ encodes (fs w) line = false)).
Proof.
  split.
  - intros [Hd Hl].
    by rewrite (show_all_unlisted join basename str_exn folder ext w e).
  - destruct (is_dir (fs w) folder) eqn:Hd.
    2:{ rewrite show_all_invalid by done.
        destruct (encodes _ _) eqn:He; [done|].
        cbn. intros [= <-]. right. by eexists. }
    destruct (list_dir (fs w) folder) as [e'|names] eqn:Hl.
    + rewrite (show_all_unlisted join basename str_exn folder ext w e')
        by done.
      cbn. intros [= ->]. by left.
    + rewrite (show_all_entries join basename str_exn folder ext names w)
        by done.
      intros He. right.
      by apply (entries_any join basename str_exn folder ext names) in He.
Qed.

(** X8.  A path that cannot be opened (the system refuses it, nothing is
    there, or a directory is there) gives the error line alone when
    standard output can encode that line: no banner is printed, nothing is
    read, and the call returns normally. *)
Theorem unopenable_path_prints_error_only (p : string) (w : world) :
  p ∈ denied (fs w) \/ is_file (fs w) p = false ->
  encodes (fs w) ("Error reading file '" +:+ p +:+ "': "
                  +:+ str_exn (OSError p)) = true ->
  show p w
  = (mkW (fs w) (out w ++ ["Error reading file '" +:+ p +:+ "': "
                           +:+ str_exn (OSError p)])
         (log w ++ [EvOpen p]),
     inr tt)
  /\ (opening p ∉ prints (show p) (fs w))
  /\ (closing p ∉ prints (show p) (fs w)).
Proof.
  intros H He. split; [by apply show_refused|].
  unfold prints.
  rewrite (show_refused basename str_exn p (mkW (fs w) [] [])) by done.
  cbn.
  split; intros Hin%list_elem_of_singleton;
    apply (f_equal (String.get 0)) in Hin; vm_compute in Hin;
    discriminate.
Qed.

(** X10.  Called with the empty string as extension, the printer does what it
    does without an extension: every name ends with the empty string. *)
Theorem empty_string_extension_is_no_filter (folder : string) (w : world) :
  show_all folder (Some "") w = show_all folder None w.
Proof.
  unfold print_all_files_in_folder, bind.
  destruct (isdir folder w) as [w1 [e|valid]]; [done|].
  destruct (negb valid); [done|].
  destruct (listdir folder w1) as [w2 [e|names]]; [done|].
  apply for_each_ext. intros n w'. unfold entry, bind.
  destruct (isfile (join folder n) w') as [w3 [e|regular]]; [done|].
  assert (extension_matches (Some "") n = true) as ->; [|done].
  apply endswith_iff. exists n. by rewrite string_app_empty.
Qed.

End PrintFileEnds.

(** ** [print_file.py]: the entry point *)

Section MainFacts.

Variable join : string -> string -> string.
Variable basename : string -> string.
Variable str_exn : exn -> string.
Variable strip : string -> string.

Local Abbreviation show_all folder ext :=
  (print_all_files_in_folder join basename str_exn folder ext).
Local Abbreviation run t w := (main join basename str_exn strip t w).

Lemma main_two_lines (line1 line2 : string) (more shown : list string)
    (w : world) :
  run (mkT (line1 :: line2 :: more) shown) w
  = (mkT more ((shown ++ ["enter folder path: "])
               ++ ["Enter the file extension to filter"]),
     fst (show_all (strip line1) (extension_argument (strip line2)) w),
     match snd (show_all (strip line1) (extension_argument (strip line2)) w)
     with
     | inl e => inl (Uncaught e)
     | inr _ => inr tt
     end).
Proof.
  unfold main, input. cbn [typed prompted].
  by destruct (show_all (strip line1) (extension_argument (strip line2)) w)
    as [w' [e|[]]].
Qed.



(** X12.  With an extension line that is empty once stripped, the entry
    point filters nothing: on a folder that can be listed, and when
    standard output can encode the lines to print, it ends normally,
    having written its two prompts and consumed two lines, and it opens
    every regular file of the folder, in the order of the listing. *)
Theorem main_blank_extension_opens_every_regular_file
    (line1 line2 : string) (more shown names : list string) (w : world) :
  strip line2 = "" ->
  is_dir (fs w) (strip line1) = true ->
  list_dir (fs w) (strip line1) = inr names ->
  forallb
    (fun n => forallb (encodes (fs w))
                (report basename str_exn (fs w) (join (strip line1) n)))
    (chosen join (fs w) (strip line1) None names) = true ->
  exists w' steps,
    run (mkT (line1 :: line2 :: more) shown) w
    = (mkT more (shown ++ ["enter folder path: ";
                           "Enter the file extension to filter"]),
       w', inr tt)
    /\ fs w' = fs w
    /\ log w' = log w ++ steps
    /\ List.filter is_open steps
       = (fun n => EvOpen (join (strip line1) n))
         <$> List.filter (fun n => is_file (fs w) (join (strip line1) n))
               names.
Proof.
  intros Hblank Hd Hl Htakes. rewrite main_two_lines, Hblank.
  change (extension_argument "") with (@None string).
  destruct (show_all_run join basename str_exn (strip line1) None names w
              Hd Hl Htakes) as (steps & -> & Hopen).
  eexists _, _. cbn [fst snd]. split; [by rewrite <- app_assoc|].
  cbn [fs log]. split; [done|]. split; [done|].
  cbn [List.filter is_open]. rewrite Hopen. unfold chosen. f_equal.
  apply List.filter_ext. intros n. cbn. by rewrite andb_true_r.
Qed.


End MainFacts.

(** ** The further properties on the sample file systems *)

Example blocked_run :
  outcome TestPy.script blocked_fs
  = inl (FileExistsError (TestPy.cur_path work "C"))
  /\ prints TestPy.script blocked_fs
     = ["File Created " +:+ TestPy.cur_path work "B"]
  /\ calls TestPy.script blocked_fs
     = [EvListDir work; EvIsDir "A"; EvIsDir "B"; EvIsDir "C"; EvIsDir "D";
        EvIsFile (TestPy.cur_path work "B");
        EvCreate (TestPy.cur_path work "B");
        EvIsFile (TestPy.cur_path work "C");
        EvCreate (TestPy.cur_path work "C")].
Proof. by vm_compute. Qed.

Example strip_blanks :
  sample_strip "  /srv " = "/srv" /\ sample_strip "   " = ""
  /\ sample_strip ".txt" = ".txt".
Proof. by vm_compute. Qed.


Lemma one_line_per_created_readme_abc :
  NoDup ["B"; "C"]
  /\ prints TestPy.script abc_fs
     = ["File Created " +:+ TestPy.cur_path work "B"].
Proof.
  assert (NoDup ["B"; "C"]) as Hnd.
  { apply NoDup_cons. split.
    - intros H. apply list_elem_of_singleton in H. discriminate H.
    - apply NoDup_singleton. }
  split; [exact Hnd|].
  destruct (one_line_per_created_readme abc_fs
              ["A"; "notes.txt"; "B"; "C"] ["B"; "C"] "A") as [R _].
  - vm_compute. reflexivity.
  - vm_compute. reflexivity.
  - exact Hnd.
  - vm_compute. reflexivity.
  - vm_compute. reflexivity.
  - etrans; [exact R|]. vm_compute. reflexivity.
Defined.

Lemma first_refusal_stops_the_run_blocked :
  passable blocked_fs (TestPy.cur_path work "C") = false
  /\ outcome TestPy.script blocked_fs
     = inl (FileExistsError (TestPy.cur_path work "C"))
  /\ is_file (after TestPy.script blocked_fs) (TestPy.cur_path work "B")
     = true
  /\ nodes (after TestPy.script blocked_fs) !! TestPy.cur_path work "D"
     = None
  /\ (EvIsFile (TestPy.cur_path work "D") ∉ calls TestPy.script blocked_fs).
Proof.
  assert (passable blocked_fs (TestPy.cur_path (cwd blocked_fs) "C") = false)
    as Hd by (vm_compute; reflexivity).
  split; [exact Hd|].
  destruct (first_refusal_stops_the_run blocked_fs
              ["A"; "B"; "C"; "D"] ["B"] ["D"] "A" "C")
    as (R1 & R2 & R3 & R4).
  - vm_compute. reflexivity.
  - vm_compute. reflexivity.
  - vm_compute. reflexivity.
  - vm_compute. reflexivity.
  - exact Hd.
  - split; [etrans; [exact R1|]; vm_compute; reflexivity|].
    split; [apply (R2 "B"); by repeat constructor|].
    split.
    + etrans; [apply R3|]; [|vm_compute; reflexivity].
      intros H. apply list_elem_of_singleton in H.
      apply cur_path_inj in H. discriminate H.
    + apply (R4 "D").
      * intros H. apply list_elem_of_singleton in H. discriminate H.
      * discriminate.
Defined.

Lemma unopenable_path_prints_error_only_srv :
  is_file srv_fs "/srv/sub" = false
  /\ prints (print_file_contents posix_basename sample_str "/srv/sub") srv_fs
     = ["Error reading file '/srv/sub': [Errno 13] Permission denied: /srv/sub"].
Proof.
  assert (is_file (fs srv_world) "/srv/sub" = false) as H
    by (vm_compute; reflexivity).
  split; [exact H|].
  destruct (unopenable_path_prints_error_only posix_basename sample_str
              "/srv/sub" srv_world (or_intror H)) as [Hrun _].
  - vm_compute. reflexivity.
  - unfold prints. etrans; [exact (f_equal _ (f_equal _ Hrun))|].
    vm_compute. reflexivity.
Defined.

Lemma printer_failure_modes_locked :
  snd (print_all_files_in_folder posix_join posix_basename sample_str
         "/srv" None (mkW locked_fs [] []))
  = inl (OSError "/srv")
  /\ out (fst (print_all_files_in_folder posix_join posix_basename sample_str
                 "/srv" None (mkW locked_fs [] [])))
     = [].
Proof.
  destruct (printer_failure_modes posix_join posix_basename
              sample_str "/srv" None (mkW locked_fs [] []) (OSError "/srv"))
    as [Hraise _].
  apply Hraise. split; vm_compute; reflexivity.
Defined.


Lemma main_blank_extension_opens_every_regular_file_srv :
  sample_strip "   " = ""
  /\ exists w' steps,
       main posix_join posix_basename sample_str sample_strip
         (mkT ["  /srv "; "   "; "left"] []) srv_world
       = (mkT ["left"]
            ["enter folder path: "; "Enter the file extension to filter"],
          w', inr tt)
       /\ log w' = steps
       /\ List.filter is_open steps
          = [EvOpen "/srv/a.txt"; EvOpen "/srv/b.log"; EvOpen "/srv/bad.txt";
             EvOpen "/srv/c.txt"].
Proof.
  assert (sample_strip "   " = "") as Hblank by (vm_compute; reflexivity).
  split; [exact Hblank|].
  destruct (main_blank_extension_opens_every_regular_file posix_join
              posix_basename sample_str sample_strip "  /srv " "   "
              ["left"] [] ["a.txt"; "b.log"; "sub"; "bad.txt"; "c.txt"]
              srv_world Hblank)
    as (w' & steps & Hrun & _ & Hlog & Hopen).
  - vm_compute. reflexivity.
  - vm_compute. reflexivity.
  - vm_compute. reflexivity.
  - exists w', steps. split; [exact Hrun|]. split; [exact Hlog|].
    etrans; [exact Hopen|]. vm_compute. reflexivity.
Defined.

